(** * vault-jwt-secrets: the JWKS endpoint and the configuration endpoint

    A shallow embedding of [plugin/path_jwks.go] and [plugin/path_config.go]
    and the properties of the two request handlers that carry logic:
    [getPublicKeys] (the key set published under [jwks]) and
    [pathConfigWrite] (validation and merge of a configuration update).

    Conventions.
    - Go's [int] and [time.Duration] are 64-bit signed integers; they are
      values of [Z], and the places where the code does arithmetic on them
      write the two's-complement wrap-around out ([Go.wrap]).
    - A Go function returning [(value, error)] returns an [Outcome]; a run-time
      panic (a failed type assertion, an index out of range, a negative
      length given to [make]) is an outcome of its own.
    - Maps ([policy.Keys], the field data of a request, the data of a
      response) are [gmap]s keyed by strings.
    - Functions of the Go standard library, of go-jose and of the Vault SDK,
      and the declarations of the plugin that live outside the two files,
      are the fields of the class [Env]. *)

From Stdlib Require Import ZArith String Ascii List Bool Lia Sorted.
From stdpp Require Import base option gmap strings list pretty.

Local Open Scope string_scope.
Local Open Scope list_scope.
Local Open Scope Z_scope.

(** ** Go integers *)

Module Go.

Definition int_min : Z := - 2 ^ 63.
Definition int_max : Z := 2 ^ 63 - 1.

(** Reduction of a mathematical integer to the 64-bit signed range. *)
Definition wrap (z : Z) : Z := (z - int_min) mod 2 ^ 64 + int_min.

Definition in_range (z : Z) : Prop := int_min <= z <= int_max.

(** [strconv.Itoa]: the decimal rendering of an [int]. *)
Definition Itoa (z : Z) : string := pretty z.

End Go.

(** ** Errors, dynamically typed values, responses *)

Inductive error : Type :=
| ErrInvalidRequest                 (* logical.ErrInvalidRequest *)
| ErrLib (pkg msg : string).        (* an error value made by a library *)

(** An [interface{}] value as the framework hands it over or takes it back. *)
Inductive Value : Type :=
| VString (s : string)
| VInt (n : Z)
| VBool (b : bool)
| VStringSlice (l : list string)
| VIntSlice (l : list Z)
| VBytes (raw : string).

(** [logical.Response]: either built by [logical.ErrorResponse], kept here
    as the format string and its arguments, or carrying a data map. *)
Inductive Response : Type :=
| ErrorResponse (format : string) (args : list Value)
| DataResponse (Data : gmap string Value).

Inductive Outcome (A : Type) : Type :=
| Return (a : A)
| Reject (resp : option Response) (err : error)
| Panic (reason : string).

Arguments Return {A} a.
Arguments Reject {A} resp err.
Arguments Panic {A} reason.

Definition obind {A B : Type} (m : Outcome A) (k : A -> Outcome B) : Outcome B :=
  match m with
  | Return a => k a
  | Reject resp err => Reject resp err
  | Panic reason => Panic reason
  end.

Notation "x <- m ;; k" := (obind m (fun x => k))
  (at level 100, m at next level, right associativity).

Definition succeeded {A : Type} (o : Outcome A) : bool :=
  match o with Return _ => true | _ => false end.

(** ** The configuration record *)

(** [time.Duration]: a number of nanoseconds. *)
Definition Duration : Type := Z.

(** Modelled from the spec: the [Config] struct is declared in a file of the
    plugin outside the two embedded here. Its fields are the ones the two
    files read and write, with the types they are used at, and [Issuer], which
    the data model of the specification lists and the two files never
    touch. *)
Record Config : Type := mkConfig {
  SignatureAlgorithm : string;
  RSAKeyBits : Z;
  KeyRotationPeriod : Duration;
  TokenTTL : Duration;
  SetIAT : bool;
  SetJTI : bool;
  SetNBF : bool;
  Issuer : string;
  AudiencePattern : string;
  SubjectPattern : string;
  MaxAudiences : Z;
  AllowedClaims : list string
}.

Definition withSignatureAlgorithm (v : string) (c : Config) : Config :=
  mkConfig v (RSAKeyBits c) (KeyRotationPeriod c) (TokenTTL c) (SetIAT c)
    (SetJTI c) (SetNBF c) (Issuer c) (AudiencePattern c) (SubjectPattern c)
    (MaxAudiences c) (AllowedClaims c).

Definition withRSAKeyBits (v : Z) (c : Config) : Config :=
  mkConfig (SignatureAlgorithm c) v (KeyRotationPeriod c) (TokenTTL c)
    (SetIAT c) (SetJTI c) (SetNBF c) (Issuer c) (AudiencePattern c)
    (SubjectPattern c) (MaxAudiences c) (AllowedClaims c).

Definition withKeyRotationPeriod (v : Duration) (c : Config) : Config :=
  mkConfig (SignatureAlgorithm c) (RSAKeyBits c) v (TokenTTL c) (SetIAT c)
    (SetJTI c) (SetNBF c) (Issuer c) (AudiencePattern c) (SubjectPattern c)
    (MaxAudiences c) (AllowedClaims c).

Definition withTokenTTL (v : Duration) (c : Config) : Config :=
  mkConfig (SignatureAlgorithm c) (RSAKeyBits c) (KeyRotationPeriod c) v
    (SetIAT c) (SetJTI c) (SetNBF c) (Issuer c) (AudiencePattern c)
    (SubjectPattern c) (MaxAudiences c) (AllowedClaims c).

Definition withSetIAT (v : bool) (c : Config) : Config :=
  mkConfig (SignatureAlgorithm c) (RSAKeyBits c) (KeyRotationPeriod c)
    (TokenTTL c) v (SetJTI c) (SetNBF c) (Issuer c) (AudiencePattern c)
    (SubjectPattern c) (MaxAudiences c) (AllowedClaims c).

Definition withSetJTI (v : bool) (c : Config) : Config :=
  mkConfig (SignatureAlgorithm c) (RSAKeyBits c) (KeyRotationPeriod c)
    (TokenTTL c) (SetIAT c) v (SetNBF c) (Issuer c) (AudiencePattern c)
    (SubjectPattern c) (MaxAudiences c) (AllowedClaims c).

Definition withSetNBF (v : bool) (c : Config) : Config :=
  mkConfig (SignatureAlgorithm c) (RSAKeyBits c) (KeyRotationPeriod c)
    (TokenTTL c) (SetIAT c) (SetJTI c) v (Issuer c) (AudiencePattern c)
    (SubjectPattern c) (MaxAudiences c) (AllowedClaims c).

Definition withAudiencePattern (v : string) (c : Config) : Config :=
  mkConfig (SignatureAlgorithm c) (RSAKeyBits c) (KeyRotationPeriod c)
    (TokenTTL c) (SetIAT c) (SetJTI c) (SetNBF c) (Issuer c) v
    (SubjectPattern c) (MaxAudiences c) (AllowedClaims c).

Definition withSubjectPattern (v : string) (c : Config) : Config :=
  mkConfig (SignatureAlgorithm c) (RSAKeyBits c) (KeyRotationPeriod c)
    (TokenTTL c) (SetIAT c) (SetJTI c) (SetNBF c) (Issuer c)
    (AudiencePattern c) v (MaxAudiences c) (AllowedClaims c).

Definition withMaxAudiences (v : Z) (c : Config) : Config :=
  mkConfig (SignatureAlgorithm c) (RSAKeyBits c) (KeyRotationPeriod c)
    (TokenTTL c) (SetIAT c) (SetJTI c) (SetNBF c) (Issuer c)
    (AudiencePattern c) (SubjectPattern c) v (AllowedClaims c).

Definition withAllowedClaims (v : list string) (c : Config) : Config :=
  mkConfig (SignatureAlgorithm c) (RSAKeyBits c) (KeyRotationPeriod c)
    (TokenTTL c) (SetIAT c) (SetJTI c) (SetNBF c) (Issuer c)
    (AudiencePattern c) (SubjectPattern c) (MaxAudiences c) v.

(** ** The key policy and the key set *)

(** [keysutil.KeyType]. *)
Inductive KeyType : Type :=
| KeyType_AES256_GCM96
| KeyType_ECDSA_P256
| KeyType_ED25519
| KeyType_RSA2048
| KeyType_RSA4096
| KeyType_ChaCha20_Poly1305
| KeyType_ECDSA_P384
| KeyType_ECDSA_P521
| KeyType_AES128_GCM96
| KeyType_RSA3072.

Definition KeyType_eqb (a b : KeyType) : bool :=
  match a, b with
  | KeyType_AES256_GCM96, KeyType_AES256_GCM96
  | KeyType_ECDSA_P256, KeyType_ECDSA_P256
  | KeyType_ED25519, KeyType_ED25519
  | KeyType_RSA2048, KeyType_RSA2048
  | KeyType_RSA4096, KeyType_RSA4096
  | KeyType_ChaCha20_Poly1305, KeyType_ChaCha20_Poly1305
  | KeyType_ECDSA_P384, KeyType_ECDSA_P384
  | KeyType_ECDSA_P521, KeyType_ECDSA_P521
  | KeyType_AES128_GCM96, KeyType_AES128_GCM96
  | KeyType_RSA3072, KeyType_RSA3072 => true
  | _, _ => false
  end.

Record rsa_PublicKey : Type := { rsa_N : Z; rsa_E : Z }.
Record rsa_PrivateKey : Type := { PublicKey : rsa_PublicKey; rsa_D : Z }.

(** [keysutil.KeyEntry], the two fields the plugin reads. [RSAKey] is a
    pointer: [None] is [nil]. *)
Record KeyEntry : Type := {
  FormattedPublicKey : string;
  RSAKey : option rsa_PrivateKey
}.

(** [keysutil.Policy], the fields the plugin reads. *)
Record Policy : Type := {
  Name : string;
  Type_ : KeyType;
  LatestVersion : Z;
  MinDecryptionVersion : Z;
  Keys : gmap string KeyEntry
}.

(** What the [Key interface{}] field of a [jose.JSONWebKey] holds after
    [getPublicKeys]: an [ed25519.PublicKey] (a byte slice), a pointer to an
    [rsa.PublicKey], or another key type returned by
    [x509.ParsePKIXPublicKey]. *)
Inductive KeyMaterial : Type :=
| ed25519_PublicKey (raw : string)
| rsa_PublicKey_ref (pub : rsa_PublicKey)
| ecdsa_PublicKey_ref (curve : string) (X Y : Z).

(** [jose.JSONWebKey], the fields [getPublicKeys] writes. *)
Record JSONWebKey : Type := mkJWK {
  Key : option KeyMaterial;
  KeyID : string;
  Algorithm : string;
  Use : string
}.

(** The zero value of [jose.JSONWebKey], which [make] fills a slice with. *)
Definition zeroJWK : JSONWebKey := mkJWK None "" "" "".

Record JSONWebKeySet : Type := mkJWKSet { SetKeys : list JSONWebKey }.

(** ** The environment of the two files *)

Class Env : Type := {
  (** Go standard library and go-jose. *)
  time_ParseDuration : string -> Duration + error;
  Duration_String : Duration -> string;
  regexp_Compile : string -> option error;
  base64_DecodeString : string -> string + error;
  pem_Decode : string -> option string;
  x509_ParsePKIXPublicKey : string -> KeyMaterial + error;
  json_Marshal : list JSONWebKey -> string + error;
  (** Declarations of the plugin outside the two files. *)
  AllowedSignatureAlgorithmNames : list string;
  AllowedRSAKeyBits : list Z;
  ReservedClaims : list string;
  DefaultConfig : Config;
  createKeyId : string -> string -> Z -> string
}.

(** The storage of a mount, as far as the plugin uses it: the one record
    under [configPath], and whether the next read or write of it fails. *)
Record Storage : Type := mkStorage {
  entry : option Config;
  getFailure : option error;
  putFailure : option error
}.

(** The backend: its identity, the host's lease ceiling
    ([b.System().MaxLeaseTTL()]) and the key-policy registry behind
    [b.getPolicy]. *)
Record backend : Type := {
  id : string;
  MaxLeaseTTL : Duration;
  getPolicy : Storage -> Config -> string -> Outcome Policy
}.

(** A request handler reads and writes the storage and returns an outcome. *)
Definition Handler (A : Type) : Type := Storage -> Outcome A * Storage.

Definition hret {A : Type} (a : A) : Handler A := fun stg => (Return a, stg).

Definition hbind {A B : Type} (m : Handler A) (k : A -> Handler B) : Handler B :=
  fun stg =>
    match m stg with
    | (Return a, stg') => k a stg'
    | (Reject resp err, stg') => (Reject resp err, stg')
    | (Panic reason, stg') => (Panic reason, stg')
    end.

(** A computation that does not touch the storage. *)
Definition pure_step {A : Type} (o : Outcome A) : Handler A := fun stg => (o, stg).

Notation "x <~ m ;; k" := (hbind m (fun x => k))
  (at level 100, m at next level, right associativity).

(** ** [path_config.go] *)

Definition keySignatureAlgorithm : string := "sig_alg".
Definition keyRSAKeyBits : string := "rsa_key_bits".
Definition keyRotationDuration : string := "key_ttl".
Definition keyTokenTTL : string := "jwt_ttl".
Definition keySetIAT : string := "set_iat".
Definition keySetJTI : string := "set_jti".
Definition keySetNBF : string := "set_nbf".
Definition keyAudiencePattern : string := "audience_pattern".
Definition keySubjectPattern : string := "subject_pattern".
Definition keyMaxAllowedAudiences : string := "max_audiences".
Definition keyAllowedClaims : string := "allowed_claims".

(** Modelled from the spec: [keyIssuer] is declared outside the two files;
    the schema of [pathConfig] (line 75) and its help text (line 296) use
    it, and the specification gives the field its name. *)
Definition keyIssuer : string := "issuer".

(** [framework.FieldData] after the framework parsed the request against the
    schema: the fields that were sent, with their values. *)
Definition GetOk (d : gmap string Value) (k : string) : option Value := d !! k.

Fixpoint stringInSlice (a : string) (list : list string) : bool :=
  match list with
  | [] => false
  | b :: rest => if String.eqb b a then true else stringInSlice a rest
  end.

Fixpoint intInSlice (a : Z) (list : list Z) : bool :=
  match list with
  | [] => false
  | b :: rest => if Z.eqb b a then true else intInSlice a rest
  end.

Section PathConfig.

Context `{Env}.

(** Modelled from the spec: [getConfig] is declared in a file of the
    plugin outside the two embedded here. It returns a copy of the stored
    record, or the defaults when none is stored, and writes nothing; a
    failing storage read is returned as the error. *)
Definition getConfig : Handler Config :=
  fun stg =>
    match getFailure stg with
    | Some err => (Reject None err, stg)
    | None => (Return (default DefaultConfig (entry stg)), stg)
    end.

(** Modelled from the spec: [saveConfig], declared next to [getConfig],
    replaces the stored record, or fails and leaves it as it was. *)
Definition saveConfig (config : Config) : Handler unit :=
  fun stg =>
    match putFailure stg with
    | Some err => (Reject None err, stg)
    | None => (Return tt, mkStorage (Some config) (getFailure stg) (putFailure stg))
    end.

Definition configResponse (config : Config) : Outcome Response :=
  Return (DataResponse (list_to_map [
    (keySignatureAlgorithm, VString (SignatureAlgorithm config));
    (keyRSAKeyBits, VInt (RSAKeyBits config));
    (keyRotationDuration, VString (Duration_String (KeyRotationPeriod config)));
    (keyTokenTTL, VString (Duration_String (TokenTTL config)));
    (keySetIAT, VBool (SetIAT config));
    (keySetJTI, VBool (SetJTI config));
    (keySetNBF, VBool (SetNBF config));
    (keyAudiencePattern, VString (AudiencePattern config));
    (keySubjectPattern, VString (SubjectPattern config));
    (keyMaxAllowedAudiences, VInt (MaxAudiences config));
    (keyAllowedClaims, VStringSlice (AllowedClaims config))])).

(** The eleven [if ..., ok := d.GetOk(...); ok] blocks of
    [pathConfigWrite], in source order. Each works on the handler's local
    [config]; a type assertion in its one-result form panics on a value of
    another type. *)

(* lines 134-143 *)
Definition updateSignatureAlgorithm (d : gmap string Value) (config : Config)
  : Outcome Config :=
  match GetOk d keySignatureAlgorithm with
  | Some (VString newSignatureAlgorithmName) =>
      if negb (stringInSlice newSignatureAlgorithmName AllowedSignatureAlgorithmNames)
      then Reject
             (Some (ErrorResponse
                      "unknown/unsupported signature algorithm, must be one of %s"
                      [VStringSlice AllowedSignatureAlgorithmNames]))
             ErrInvalidRequest
      else Return (withSignatureAlgorithm newSignatureAlgorithmName config)
  | Some _ =>
      Reject (Some (ErrorResponse "sig_alg must be a string" [])) ErrInvalidRequest
  | None => Return config
  end.

(* lines 145-154 *)
Definition updateRSAKeyBits (d : gmap string Value) (config : Config)
  : Outcome Config :=
  match GetOk d keyRSAKeyBits with
  | Some (VInt newRSAKeyBits) =>
      if negb (intInSlice newRSAKeyBits AllowedRSAKeyBits)
      then Reject
             (Some (ErrorResponse "unsupported rsa_key_bits, must be one of %s"
                      [VIntSlice AllowedRSAKeyBits]))
             ErrInvalidRequest
      else Return (withRSAKeyBits newRSAKeyBits config)
  | Some _ =>
      Reject (Some (ErrorResponse "rsa_key_bits must be an integer" [])) ErrInvalidRequest
  | None => Return config
  end.

(* lines 156-162 *)
Definition updateRotationPeriod (d : gmap string Value) (config : Config)
  : Outcome Config :=
  match GetOk d keyRotationDuration with
  | Some (VString newRotationPeriod) =>
      match time_ParseDuration newRotationPeriod with
      | inl duration => Return (withKeyRotationPeriod duration config)
      | inr err => Reject None err
      end
  | Some _ => Panic "interface conversion: interface {} is not string"
  | None => Return config
  end.

(* lines 164-170 *)
Definition updateTokenTTL (d : gmap string Value) (config : Config)
  : Outcome Config :=
  match GetOk d keyTokenTTL with
  | Some (VString newTTL) =>
      match time_ParseDuration newTTL with
      | inl duration => Return (withTokenTTL duration config)
      | inr err => Reject None err
      end
  | Some _ => Panic "interface conversion: interface {} is not string"
  | None => Return config
  end.

(* lines 172-182 *)
Definition updateBool (key : string) (set : bool -> Config -> Config)
    (d : gmap string Value) (config : Config) : Outcome Config :=
  match GetOk d key with
  | Some (VBool v) => Return (set v config)
  | Some _ => Panic "interface conversion: interface {} is not bool"
  | None => Return config
  end.

(* lines 184-198: the pattern is assigned, then compiled *)
Definition updatePattern (key : string) (set : string -> Config -> Config)
    (get : Config -> string) (message : string)
    (d : gmap string Value) (config : Config) : Outcome Config :=
  match GetOk d key with
  | Some (VString newPattern) =>
      let config := set newPattern config in
      match regexp_Compile (get config) with
      | Some err => Reject (Some (ErrorResponse message [])) err
      | None => Return config
      end
  | Some _ => Panic "interface conversion: interface {} is not string"
  | None => Return config
  end.

(* lines 200-202 *)
Definition updateMaxAudiences (d : gmap string Value) (config : Config)
  : Outcome Config :=
  match GetOk d keyMaxAllowedAudiences with
  | Some (VInt newMaxAudiences) => Return (withMaxAudiences newMaxAudiences config)
  | Some _ => Panic "interface conversion: interface {} is not int"
  | None => Return config
  end.

(** The [for ... range] of lines 207-211: the first claim of the list that
    is reserved, if there is one. *)
Fixpoint reservedAmong (newAllowedClaims : list string) : option string :=
  match newAllowedClaims with
  | [] => None
  | newAllowedClaim :: rest =>
      if stringInSlice newAllowedClaim ReservedClaims
      then Some newAllowedClaim
      else reservedAmong rest
  end.

(* lines 204-214 *)
Definition updateAllowedClaims (d : gmap string Value) (config : Config)
  : Outcome Config :=
  match GetOk d keyAllowedClaims with
  | Some (VStringSlice newAllowedClaims) =>
      match reservedAmong newAllowedClaims with
      | Some newAllowedClaim =>
          Reject
            (Some (ErrorResponse
                     "'%s' claim is reserved and not permitted in allowed_claims"
                     [VString newAllowedClaim]))
            ErrInvalidRequest
      | None => Return (withAllowedClaims newAllowedClaims config)
      end
  | Some _ => Panic "interface conversion: interface {} is not []string"
  | None => Return config
  end.

(** Lines 134-214 as a whole. *)
Definition applyFields (d : gmap string Value) (config : Config) : Outcome Config :=
  config <- updateSignatureAlgorithm d config ;;
  config <- updateRSAKeyBits d config ;;
  config <- updateRotationPeriod d config ;;
  config <- updateTokenTTL d config ;;
  config <- updateBool keySetIAT withSetIAT d config ;;
  config <- updateBool keySetJTI withSetJTI d config ;;
  config <- updateBool keySetNBF withSetNBF d config ;;
  config <- updatePattern keyAudiencePattern withAudiencePattern AudiencePattern
              "invalid audience pattern" d config ;;
  config <- updatePattern keySubjectPattern withSubjectPattern SubjectPattern
              "invalid subject pattern" d config ;;
  config <- updateMaxAudiences d config ;;
  updateAllowedClaims d config.

Definition pathConfigWrite (b : backend) (d : gmap string Value) : Handler Response :=
  config <~ getConfig ;;
  config <~ pure_step (applyFields d config) ;;
  if TokenTTL config >? MaxLeaseTTL b
  then pure_step
         (Reject (Some (ErrorResponse "'%s' is greater that the max lease ttl"
                          [VString keyTokenTTL]))
                 ErrInvalidRequest)
  else
    _ <~ saveConfig config ;;
    pure_step (configResponse config).

Definition pathConfigRead : Handler Response :=
  config <~ getConfig ;;
  pure_step (configResponse config).

(** *** Vocabulary for the properties of the configuration write *)

(** The rejection of lines 216-218, with the format argument filled in. *)
Definition ttlRejection : Outcome Response :=
  Reject (Some (ErrorResponse "'%s' is greater that the max lease ttl"
                  [VString "jwt_ttl"]))
         ErrInvalidRequest.

(** The checks of a write, one constructor per check that an update [d] can
    fail against the current configuration and the ceiling of [b]. *)
Inductive check_fails (b : backend) (d : gmap string Value) (current : Config) : Prop :=
| algorithm_not_string (v : Value) :
    d !! keySignatureAlgorithm = Some v ->
    (forall s, v <> VString s) ->
    check_fails b d current
| algorithm_not_allowed (name : string) :
    d !! keySignatureAlgorithm = Some (VString name) ->
    stringInSlice name AllowedSignatureAlgorithmNames = false ->
    check_fails b d current
| key_bits_not_integer (v : Value) :
    d !! keyRSAKeyBits = Some v ->
    (forall n, v <> VInt n) ->
    check_fails b d current
| key_bits_not_allowed (bits : Z) :
    d !! keyRSAKeyBits = Some (VInt bits) ->
    intInSlice bits AllowedRSAKeyBits = false ->
    check_fails b d current
| rotation_period_unparsable (s : string) (err : error) :
    d !! keyRotationDuration = Some (VString s) ->
    time_ParseDuration s = inr err ->
    check_fails b d current
| token_ttl_unparsable (s : string) (err : error) :
    d !! keyTokenTTL = Some (VString s) ->
    time_ParseDuration s = inr err ->
    check_fails b d current
| audience_pattern_invalid (s : string) (err : error) :
    d !! keyAudiencePattern = Some (VString s) ->
    regexp_Compile s = Some err ->
    check_fails b d current
| subject_pattern_invalid (s : string) (err : error) :
    d !! keySubjectPattern = Some (VString s) ->
    regexp_Compile s = Some err ->
    check_fails b d current
| reserved_claim_allowed (claims : list string) (claim : string) :
    d !! keyAllowedClaims = Some (VStringSlice claims) ->
    In claim claims ->
    stringInSlice claim ReservedClaims = true ->
    check_fails b d current
| token_ttl_over_ceiling (candidate : Config) :
    applyFields d current = Return candidate ->
    TokenTTL candidate > MaxLeaseTTL b ->
    check_fails b d current.

(** The data map of a successful response. *)
Definition responseData (o : Outcome Response) : gmap string Value :=
  match o with
  | Return (DataResponse data) => data
  | _ => ∅
  end.

(** The twelve fields of the schema of [pathConfig] (lines 46-96), each
    with a value of the type the schema gives it. *)
Record FieldValues : Type := {
  sig_alg : string;
  rsa_key_bits : Z;
  key_ttl : string;
  jwt_ttl : string;
  set_iat : bool;
  set_jti : bool;
  set_nbf : bool;
  issuer : string;
  audience_pattern : string;
  subject_pattern : string;
  max_audiences : Z;
  allowed_claims : list string
}.

(** The field data of a request that sets every field. *)
Definition fieldData (v : FieldValues) : gmap string Value :=
  list_to_map [
    (keySignatureAlgorithm, VString (sig_alg v));
    (keyRSAKeyBits, VInt (rsa_key_bits v));
    (keyRotationDuration, VString (key_ttl v));
    (keyTokenTTL, VString (jwt_ttl v));
    (keySetIAT, VBool (set_iat v));
    (keySetJTI, VBool (set_jti v));
    (keySetNBF, VBool (set_nbf v));
    (keyIssuer, VString (issuer v));
    (keyAudiencePattern, VString (audience_pattern v));
    (keySubjectPattern, VString (subject_pattern v));
    (keyMaxAllowedAudiences, VInt (max_audiences v));
    (keyAllowedClaims, VStringSlice (allowed_claims v))].

(** Values every check accepts; [rotation] and [ttl] are the durations the
    two duration strings parse to. *)
Definition legal_values (b : backend) (v : FieldValues) (rotation ttl : Duration) : Prop :=
  stringInSlice (sig_alg v) AllowedSignatureAlgorithmNames = true
  /\ intInSlice (rsa_key_bits v) AllowedRSAKeyBits = true
  /\ time_ParseDuration (key_ttl v) = inl rotation
  /\ time_ParseDuration (jwt_ttl v) = inl ttl
  /\ ttl <= MaxLeaseTTL b
  /\ regexp_Compile (audience_pattern v) = None
  /\ regexp_Compile (subject_pattern v) = None
  /\ Forall (fun claim => stringInSlice claim ReservedClaims = false) (allowed_claims v).

(** The round trip in the words of the specification: the write succeeds
    and the read that follows returns, for every field written, exactly the
    value written. *)
Definition reads_back_exactly (b : backend) (stg : Storage) (v : FieldValues) : Prop :=
  exists (resp : Response) (stg' : Storage) (data : gmap string Value),
    pathConfigWrite b (fieldData v) stg = (Return resp, stg')
    /\ fst (pathConfigRead stg') = Return (DataResponse data)
    /\ forall (k : string) (x : Value), fieldData v !! k = Some x -> data !! k = Some x.

(** *** The schema and the other handlers of [path_config.go] *)

(** [framework.FieldType], the four types the schema of [pathConfig] uses. *)
Inductive FieldType : Type :=
| TypeString
| TypeInt
| TypeBool
| TypeStringSlice.

(** The [Fields] of [pathConfig], lines 46-96. *)
Definition pathConfigFields : list (string * FieldType) :=
  [ (keySignatureAlgorithm, TypeString);
    (keyRSAKeyBits, TypeInt);
    (keyRotationDuration, TypeString);
    (keyTokenTTL, TypeString);
    (keySetIAT, TypeBool);
    (keySetJTI, TypeBool);
    (keySetNBF, TypeBool);
    (keyIssuer, TypeString);
    (keyAudiencePattern, TypeString);
    (keySubjectPattern, TypeString);
    (keyMaxAllowedAudiences, TypeInt);
    (keyAllowedClaims, TypeStringSlice) ].

Definition hasType (v : Value) (t : FieldType) : bool :=
  match v, t with
  | VString _, TypeString
  | VInt _, TypeInt
  | VBool _, TypeBool
  | VStringSlice _, TypeStringSlice => true
  | _, _ => false
  end.

(** Field data as the framework hands it to a callback: a field of the
    schema that is present holds a value of the type the schema gives it. *)
Definition conforms (fields : list (string * FieldType)) (d : gmap string Value) : Prop :=
  forall (k : string) (t : FieldType) (v : Value),
    In (k, t) fields -> d !! k = Some v -> hasType v t = true.

(** The keys [pathConfigWrite] asks the field data for. *)
Definition writtenKeys : list string :=
  [ keySignatureAlgorithm; keyRSAKeyBits; keyRotationDuration; keyTokenTTL;
    keySetIAT; keySetJTI; keySetNBF; keyAudiencePattern; keySubjectPattern;
    keyMaxAllowedAudiences; keyAllowedClaims ].

(** [pathConfigExistenceCheck], lines 119-126: [req.Storage.Get] on the
    record of the configuration. *)
Definition pathConfigExistenceCheck : Handler bool :=
  fun stg =>
    match getFailure stg with
    | Some err => (Reject None err, stg)
    | None => (Return (bool_decide (is_Some (entry stg))), stg)
    end.

(** Modelled from the spec: [clearConfig], declared next to [getConfig],
    removes the stored record; removing is a write to the storage, and a
    failing write leaves the record as it was. *)
Definition clearConfig : Handler unit :=
  fun stg =>
    match putFailure stg with
    | Some err => (Reject None err, stg)
    | None => (Return tt, mkStorage None (getFailure stg) (putFailure stg))
    end.

(** [pathConfigDelete], lines 236-243; it returns no response ([nil, nil]). *)
Definition pathConfigDelete : Handler (option Response) :=
  _ <~ clearConfig ;;
  pure_step (Return None).

(** What a block of [pathConfigWrite] that passes does to the
    configuration: the field it is about takes the value sent, if one was
    sent. *)
Definition overlayString (key : string) (set : string -> Config -> Config)
    (d : gmap string Value) (c : Config) : Config :=
  match d !! key with Some (VString s) => set s c | _ => c end.

Definition overlayInt (key : string) (set : Z -> Config -> Config)
    (d : gmap string Value) (c : Config) : Config :=
  match d !! key with Some (VInt n) => set n c | _ => c end.

Definition overlayBool (key : string) (set : bool -> Config -> Config)
    (d : gmap string Value) (c : Config) : Config :=
  match d !! key with Some (VBool v) => set v c | _ => c end.

Definition overlayDuration (key : string) (set : Duration -> Config -> Config)
    (d : gmap string Value) (c : Config) : Config :=
  match d !! key with
  | Some (VString s) =>
      match time_ParseDuration s with
      | inl duration => set duration c
      | inr _ => c
      end
  | _ => c
  end.

Definition overlayClaims (d : gmap string Value) (c : Config) : Config :=
  match d !! keyAllowedClaims with Some (VStringSlice l) => withAllowedClaims l c | _ => c end.

(** The eleven blocks one after the other, in source order. *)
Definition overlay (d : gmap string Value) (c : Config) : Config :=
  overlayClaims d
    (overlayInt keyMaxAllowedAudiences withMaxAudiences d
      (overlayString keySubjectPattern withSubjectPattern d
        (overlayString keyAudiencePattern withAudiencePattern d
          (overlayBool keySetNBF withSetNBF d
            (overlayBool keySetJTI withSetJTI d
              (overlayBool keySetIAT withSetIAT d
                (overlayDuration keyTokenTTL withTokenTTL d
                  (overlayDuration keyRotationDuration withKeyRotationPeriod d
                    (overlayInt keyRSAKeyBits withRSAKeyBits d
                      (overlayString keySignatureAlgorithm withSignatureAlgorithm d
                         c)))))))))).

(** Whether [needle] occurs somewhere in [s]. *)
Fixpoint occurs (needle s : string) : bool :=
  String.prefix needle s
  || match s with
     | EmptyString => false
     | String _ rest => occurs needle rest
     end.

(** An outcome that is an error response naming a field: the name is in
    the text of the response or among the arguments of its format. *)
Definition names_field (key : string) (o : Outcome Response) : Prop :=
  match o with
  | Reject (Some (ErrorResponse format args)) _ =>
      occurs key format = true \/ In (VString key) args
  | _ => False
  end.

(** The words of the specification on the lease ceiling: the candidate is
    the current configuration with all the fields of the update overlaid;
    when its token lifetime is above the ceiling, the write is rejected
    with an error that names [jwt_ttl] and the storage is unchanged. *)
Definition ceiling_enforced (b : backend) (d : gmap string Value)
    (stg : Storage) : Prop :=
  forall current : Config,
    fst (getConfig stg) = Return current ->
    TokenTTL (overlay d current) > MaxLeaseTTL b ->
    names_field keyTokenTTL (fst (pathConfigWrite b d stg))
    /\ snd (pathConfigWrite b d stg) = stg.

(** What a passing run of the blocks says about the update alone. *)
Definition update_accepted (d : gmap string Value) : Prop :=
  (forall s, d !! keySignatureAlgorithm = Some (VString s) ->
             stringInSlice s AllowedSignatureAlgorithmNames = true)
  /\ (forall n, d !! keyRSAKeyBits = Some (VInt n) ->
                intInSlice n AllowedRSAKeyBits = true)
  /\ (forall s, d !! keyAudiencePattern = Some (VString s) -> regexp_Compile s = None)
  /\ (forall s, d !! keySubjectPattern = Some (VString s) -> regexp_Compile s = None)
  /\ (forall l, d !! keyAllowedClaims = Some (VStringSlice l) -> reservedAmong l = None).

(** An outcome that reports a type error: the panic of a failed type
    assertion, or one of the two rejections of lines 137 and 148. *)
Definition reports_type_error {A : Type} (o : Outcome A) : Prop :=
  match o with
  | Panic _ => True
  | Reject (Some (ErrorResponse format _)) _ =>
      format = "sig_alg must be a string"
      \/ format = "rsa_key_bits must be an integer"
  | _ => False
  end.

End PathConfig.

(** ** [path_jwks.go] *)

Section PathJwks.

Context `{Env}.

(** Lines 99-121, the chain on the key family: either the iteration is
    abandoned ([continue], after the logger was told), or it goes on to
    line 123, having assigned the [Key] field or not. *)
Inductive Branch : Type :=
| Continue
| Proceed (assigned : option KeyMaterial).

Definition keyBranch (policy : Policy) (key : KeyEntry) : Branch :=
  if KeyType_eqb (Type_ policy) KeyType_ED25519 then
    match base64_DecodeString (FormattedPublicKey key) with
    | inr _ => Continue
    | inl keyBytes => Proceed (Some (ed25519_PublicKey keyBytes))
    end
  else if negb (String.eqb (FormattedPublicKey key) "") then
    match pem_Decode (FormattedPublicKey key) with
    | None => Continue
    | Some block =>
        match x509_ParsePKIXPublicKey block with
        | inr _ => Continue
        | inl publicKey => Proceed (Some publicKey)
        end
    end
  else
    match RSAKey key with
    | Some rsaKey => Proceed (Some (rsa_PublicKey_ref (PublicKey rsaKey)))
    | None => Proceed None
    end.

(** The assignments to [jwkSet.Keys[keyIdx]] of one iteration (lines 105,
    118 or 120, then 123-125), applied to the element in that slot. *)
Definition fillSlot (b : backend) (config : Config) (policy : Policy)
    (version : Z) (assigned : option KeyMaterial) (slot : JSONWebKey) : JSONWebKey :=
  mkJWK (match assigned with Some k => Some k | None => Key slot end)
        (createKeyId (id b) (Name policy) version)
        (SignatureAlgorithm config)
        "sig".

(** An indexed write into a slice: out of range, Go panics. *)
Definition writeSlot (jwkSet : list JSONWebKey) (keyIdx : Z)
    (f : JSONWebKey -> JSONWebKey) : Outcome (list JSONWebKey) :=
  if (0 <=? keyIdx) && (keyIdx <? Z.of_nat (length jwkSet))
  then Return (alter f (Z.to_nat keyIdx) jwkSet)
  else Panic "index out of range".

(** The body of the loop, lines 94-126, on the slice and [keyIdx]. *)
Definition visitVersion (b : backend) (config : Config) (policy : Policy)
    (version : Z) (jwkSet : list JSONWebKey) (keyIdx : Z)
  : Outcome (list JSONWebKey * Z) :=
  match Keys policy !! Go.Itoa version with
  | None => Return (jwkSet, keyIdx)
  | Some key =>
      match keyBranch policy key with
      | Continue => Return (jwkSet, keyIdx)
      | Proceed assigned =>
          jwkSet <- writeSlot jwkSet keyIdx (fillSlot b config policy version assigned) ;;
          Return (jwkSet, Go.wrap (keyIdx + 1))
      end
  end.

(** The [for] of line 92. [version++] wraps, so the loop need not end;
    [fuel] bounds the number of iterations and [None] says it ran out. *)
Fixpoint forVersions (fuel : nat) (b : backend) (config : Config)
    (policy : Policy) (version : Z) (jwkSet : list JSONWebKey) (keyIdx : Z)
  : option (Outcome (list JSONWebKey)) :=
  if version <=? LatestVersion policy then
    match fuel with
    | O => None
    | S fuel' =>
        match visitVersion b config policy version jwkSet keyIdx with
        | Return (jwkSet', keyIdx') =>
            forVersions fuel' b config policy (Go.wrap (version + 1)) jwkSet' keyIdx'
        | Reject resp err => Some (Reject resp err)
        | Panic reason => Some (Panic reason)
        end
    end
  else Some (Return jwkSet).

(** Lines 84-88. *)
Definition keyCount (policy : Policy) : Z :=
  Go.wrap (Go.wrap (LatestVersion policy - MinDecryptionVersion policy) + 1).

Definition getPublicKeys (fuel : nat) (b : backend) (stg : Storage) (mount : string)
  : option (Outcome JSONWebKeySet) :=
  match fst (getConfig stg) with
  | Return config =>
      match getPolicy b stg config mount with
      | Return policy =>
          if keyCount policy <? 0 then Some (Panic "makeslice: len out of range")
          else
            match forVersions fuel b config policy (MinDecryptionVersion policy)
                    (replicate (Z.to_nat (keyCount policy)) zeroJWK) 0 with
            | Some (Return keys) => Some (Return (mkJWKSet keys))
            | Some (Reject resp err) => Some (Reject resp err)
            | Some (Panic reason) => Some (Panic reason)
            | None => None
            end
      | Reject _ err => Some (Reject None err)
      | Panic reason => Some (Panic reason)
      end
  | Reject _ err => Some (Reject None err)
  | Panic reason => Some (Panic reason)
  end.




(** *** Vocabulary for the properties of the key set *)

(** The decryption window of a policy as the registry keeps it: versions
    count up from a non-negative number, and the newest one is below the
    largest [int]. *)
Definition valid_window (policy : Policy) : Prop :=
  0 <= MinDecryptionVersion policy
  /\ MinDecryptionVersion policy <= LatestVersion policy
  /\ LatestVersion policy < Go.int_max.

(** The element an iteration writes for [version], if it writes one: the
    version is in the map and its branch reaches line 123. *)
Definition published (b : backend) (config : Config) (policy : Policy)
    (version : Z) : option JSONWebKey :=
  match Keys policy !! Go.Itoa version with
  | None => None
  | Some key =>
      match keyBranch policy key with
      | Continue => None
      | Proceed assigned => Some (fillSlot b config policy version assigned zeroJWK)
      end
  end.

(** The written elements of the whole window, in ascending version order. *)
Definition emitted (b : backend) (config : Config) (policy : Policy)
  : list JSONWebKey :=
  omap (published b config policy)
       (seqZ (MinDecryptionVersion policy)
             (LatestVersion policy - MinDecryptionVersion policy + 1)).

(** A version of the window that the map does not have. *)
Definition has_gap (policy : Policy) : Prop :=
  exists version,
    MinDecryptionVersion policy <= version <= LatestVersion policy
    /\ Keys policy !! Go.Itoa version = None.

(** The policy with the entry of one version replaced. *)
Definition withKey (version : Z) (key : KeyEntry) (policy : Policy) : Policy :=
  {| Name := Name policy; Type_ := Type_ policy;
     LatestVersion := LatestVersion policy;
     MinDecryptionVersion := MinDecryptionVersion policy;
     Keys := <[Go.Itoa version := key]> (Keys policy) |}.

(** The versions of the window, in ascending order. *)
Definition window (policy : Policy) : list Z :=
  seqZ (MinDecryptionVersion policy)
       (LatestVersion policy - MinDecryptionVersion policy + 1).




End PathJwks.

(** ** Go's [time] package on durations without a fractional part

    [time.ParseDuration] and [Duration.String] are library code. The handlers
    take them from [Env]; this module follows the library's source so that
    the handlers can be run on concrete requests. Durations with a decimal
    point go through [float64] in [ParseDuration] and are outside this
    fragment: [ParseDuration] below refuses them. [String] is complete. *)

Module GoTime.

Definition Nanosecond : Z := 1.
Definition Microsecond : Z := 1000 * Nanosecond.
Definition Millisecond : Z := 1000 * Microsecond.
Definition Second : Z := 1000 * Millisecond.
Definition Minute : Z := 60 * Second.
Definition Hour : Z := 60 * Minute.

Definition micro_sign : string := String (ascii_of_nat 194) (String (ascii_of_nat 181) "").
Definition greek_mu : string := String (ascii_of_nat 206) (String (ascii_of_nat 188) "").

Definition unitMap (u : string) : option Z :=
  if String.eqb u "ns" then Some Nanosecond
  else if String.eqb u "us" then Some Microsecond
  else if String.eqb u (micro_sign +:+ "s") then Some Microsecond
  else if String.eqb u (greek_mu +:+ "s") then Some Microsecond
  else if String.eqb u "ms" then Some Millisecond
  else if String.eqb u "s" then Some Second
  else if String.eqb u "m" then Some Minute
  else if String.eqb u "h" then Some Hour
  else None.

Definition digit_of (c : ascii) : option Z :=
  let n := Z.of_nat (nat_of_ascii c) in
  if (48 <=? n) && (n <=? 57) then Some (n - 48) else None.

(** [leadingInt]: the digits at the front of [s], their value, the rest;
    [None] on overflow. *)
Fixpoint leadingInt (x : Z) (s : string) : option (Z * string) :=
  match s with
  | EmptyString => Some (x, s)
  | String c rest =>
      match digit_of c with
      | None => Some (x, s)
      | Some dg =>
          if x >? 2 ^ 63 / 10 then None
          else
            let x := x * 10 + dg in
            if x >? 2 ^ 63 then None else leadingInt x rest
      end
  end.

(** The unit: everything up to the next digit or period. *)
Fixpoint leadingUnit (s : string) : string * string :=
  match s with
  | EmptyString => (EmptyString, EmptyString)
  | String c rest =>
      if Ascii.eqb c "."%char || bool_decide (is_Some (digit_of c))
      then (EmptyString, s)
      else let '(u, s') := leadingUnit rest in (String c u, s')
  end.

Definition invalid (orig : string) : error := ErrLib "time" ("invalid duration " +:+ orig).

(** The loop [for s != ""] of [ParseDuration]; every round consumes at
    least one byte, so [fuel] is the length of the input. *)
Fixpoint parseTerms (fuel : nat) (orig s : string) (d : Z) : Z + error :=
  match s with
  | EmptyString => inl d
  | String c _ =>
      match fuel with
      | O => inr (invalid orig)
      | S fuel' =>
          if negb (Ascii.eqb c "."%char || bool_decide (is_Some (digit_of c)))
          then inr (invalid orig)
          else
            match leadingInt 0 s with
            | None => inr (invalid orig)
            | Some (v, s1) =>
                match s1 with
                | String "." _ => inr (ErrLib "time" "fractional duration, outside the fragment")
                | _ =>
                    let '(u, s2) := leadingUnit s1 in
                    if String.eqb u "" then
                      inr (ErrLib "time" ("missing unit in duration " +:+ orig))
                    else
                      match unitMap u with
                      | None => inr (ErrLib "time" ("unknown unit " +:+ u +:+ " in duration " +:+ orig))
                      | Some unit =>
                          if v >? 2 ^ 63 / unit then inr (invalid orig)
                          else
                            let d := d + v * unit in
                            if d >? 2 ^ 63 then inr (invalid orig)
                            else parseTerms fuel' orig s2 d
                      end
                end
            end
      end
  end.

Definition ParseDuration (orig : string) : Duration + error :=
  let '(neg, s) :=
    match orig with
    | String "-" rest => (true, rest)
    | String "+" rest => (false, rest)
    | _ => (false, orig)
    end in
  if String.eqb s "0" then inl 0
  else if String.eqb s "" then inr (invalid orig)
  else
    match parseTerms (String.length s) orig s 0 with
    | inr err => inr err
    | inl d =>
        if neg then inl (- d)
        else if d >? 2 ^ 63 - 1 then inr (invalid orig)
        else inl d
    end.

Definition digit_char (n : Z) : ascii := ascii_of_nat (Z.to_nat (48 + n)).

(** [fmtFrac]: the fraction of [v / 10^prec] put in front of [buf], without
    trailing zeros, and [v / 10^prec]. *)
Fixpoint fmtFrac (prec : nat) (print : bool) (buf : string) (v : Z) : string * Z :=
  match prec with
  | O => (if print then String "." buf else buf, v)
  | S prec' =>
      let digit := v mod 10 in
      let print := print || negb (digit =? 0) in
      fmtFrac prec' print (if print then String (digit_char digit) buf else buf) (v / 10)
  end.

(** [fmtInt]: the decimal digits of [v] put in front of [buf]. *)
Definition fmtInt (buf : string) (v : Z) : string := pretty v +:+ buf.

(** [Duration.String]. *)
Definition String (d : Duration) : string :=
  let u := Z.abs d in
  let body :=
    if u <? Second then
      if u =? 0 then "0s"
      else
        let '(prec, buf) :=
          if u <? Microsecond then (0%nat, "ns")
          else if u <? Millisecond then (3%nat, micro_sign +:+ "s")
          else (6%nat, "ms") in
        let '(buf, u) := fmtFrac prec false buf u in
        fmtInt buf u
    else
      let '(buf, u) := fmtFrac 9 false "s" u in
      let buf := fmtInt buf (u mod 60) in
      let u := u / 60 in
      if u >? 0 then
        let buf := fmtInt (String.String "m" buf) (u mod 60) in
        let u := u / 60 in
        if u >? 0 then fmtInt (String.String "h" buf) u else buf
      else buf in
  if d <? 0 then String.String "-" body else body.

End GoTime.

(** ** An environment and requests to run the handlers on *)

Module Example.

(** Patterns made of letters, digits and [- _ : / .] only are valid
    regular expressions; this compiler accepts those and no others. *)
Definition plain_char (c : ascii) : bool :=
  let n := nat_of_ascii c in
  ((48 <=? n) && (n <=? 57) || (65 <=? n) && (n <=? 90) || (97 <=? n) && (n <=? 122)
   || (45 <=? n) && (n <=? 47) || (n =? 58) || (n =? 95))%nat.

Fixpoint plain (s : string) : bool :=
  match s with
  | EmptyString => true
  | String c rest => plain_char c && plain rest
  end.

Definition compile (expr : string) : option error :=
  if plain expr then None else Some (ErrLib "regexp" ("error parsing regexp: " +:+ expr)).

Definition defaults : Config :=
  {| SignatureAlgorithm := "RS256"; RSAKeyBits := 2048;
     KeyRotationPeriod := 1209600 * GoTime.Second; TokenTTL := 180 * GoTime.Second;
     SetIAT := true; SetJTI := true; SetNBF := true; Issuer := "";
     AudiencePattern := ""; SubjectPattern := ""; MaxAudiences := -1;
     AllowedClaims := [] |}.

(** The duration functions follow Go; the pattern compiler is the one
    above; the key decoders and the marshaller know no input (the requests
    below hold RSA keys as structures and never reach a decoder); the three
    enumerations and the defaults are sample values, the reserved claims
    being registered claim names the backend sets itself; the key id is a
    readable stand-in. *)
#[local] Instance env : Env := {|
  time_ParseDuration := GoTime.ParseDuration;
  Duration_String := GoTime.String;
  regexp_Compile := compile;
  base64_DecodeString := fun _ => inr (ErrLib "base64" "unknown input");
  pem_Decode := fun _ => None;
  x509_ParsePKIXPublicKey := fun _ => inr (ErrLib "x509" "unknown input");
  json_Marshal := fun _ => inr (ErrLib "json" "unknown input");
  AllowedSignatureAlgorithmNames := ["ES256"; "ES384"; "ES512"; "RS256"; "RS384"; "RS512"];
  AllowedRSAKeyBits := [2048; 3072; 4096];
  ReservedClaims := ["iss"; "exp"; "nbf"; "iat"; "jti"];
  DefaultConfig := defaults;
  createKeyId := fun backendId name version =>
    backendId +:+ ":" +:+ name +:+ ":" +:+ Go.Itoa version
|}.

Definition emptyStorage : Storage := mkStorage None None None.

Definition rsaEntry (n : Z) : KeyEntry :=
  {| FormattedPublicKey := "";
     RSAKey := Some {| PublicKey := {| rsa_N := n; rsa_E := 65537 |}; rsa_D := 1 |} |}.

(** Versions 2 and 4 of a window from 2 to 4; version 3 was pruned. *)
Definition prunedPolicy : Policy :=
  {| Name := "jwt"; Type_ := KeyType_RSA2048;
     LatestVersion := 4; MinDecryptionVersion := 2;
     Keys := <["2" := rsaEntry 3233]> (<["4" := rsaEntry 3127]> ∅) |}.

(** Versions 1 and 3 of a window from 1 to 3. *)
Definition sparsePolicy : Policy :=
  {| Name := "jwt"; Type_ := KeyType_RSA2048;
     LatestVersion := 3; MinDecryptionVersion := 1;
     Keys := <["1" := rsaEntry 3233]> (<["3" := rsaEntry 3127]> ∅) |}.

(** One version, whose entry has neither a formatted public key nor an RSA
    key structure (what the registry keeps for a symmetric key). *)
Definition bareEntry : KeyEntry := {| FormattedPublicKey := ""; RSAKey := None |}.

Definition barePolicy : Policy :=
  {| Name := "jwt"; Type_ := KeyType_AES256_GCM96;
     LatestVersion := 1; MinDecryptionVersion := 1;
     Keys := <["1" := bareEntry]> ∅ |}.

(** A request that sets every field of the schema to a value the checks
    accept. *)
Definition fullUpdate : FieldValues :=
  {| sig_alg := "ES256"; rsa_key_bits := 4096;
     key_ttl := "48h"; jwt_ttl := "90s";
     set_iat := false; set_jti := true; set_nbf := false;
     issuer := "https://vault.example";
     audience_pattern := "api.example.com"; subject_pattern := "svc-.";
     max_audiences := -1; allowed_claims := ["email"; "groups"] |}.

(** A stored configuration whose token lifetime, 1000 hours, is above the
    ceiling of [backendOf], 768 hours. *)
Definition longLived : Config := withTokenTTL (1000 * GoTime.Hour) defaults.

(** A window from 1 to 3 with every version present. *)
Definition fullPolicy : Policy :=
  {| Name := "jwt"; Type_ := KeyType_RSA2048;
     LatestVersion := 3; MinDecryptionVersion := 1;
     Keys := <["1" := rsaEntry 3233]>
               (<["2" := rsaEntry 2773]> (<["3" := rsaEntry 3127]> ∅)) |}.

(** An entry whose formatted public key is not PEM. *)
Definition brokenEntry : KeyEntry :=
  {| FormattedPublicKey := "not a pem block"; RSAKey := None |}.

(** A window whose newest version is below its oldest. *)
Definition invertedPolicy : Policy :=
  {| Name := "jwt"; Type_ := KeyType_RSA2048;
     LatestVersion := 1; MinDecryptionVersion := 4; Keys := ∅ |}.

(** An update of [set_iat] alone. *)
Definition flagUpdate : gmap string Value := {[keySetIAT := VBool false]}.

(** An update whose claim list holds two reserved claims, [exp] first. *)
Definition claimsUpdate : gmap string Value :=
  {[keyAllowedClaims := VStringSlice ["email"; "exp"; "iat"]]}.

(** An update with an algorithm outside the allowed set and a lifetime
    that does not parse. *)
Definition badAlgorithmUpdate : gmap string Value :=
  <[keySignatureAlgorithm := VString "none"]> {[keyTokenTTL := VString "soon"]}.

(** An update whose token lifetime is the ceiling of [backendOf]. *)
Definition ceilingUpdate : gmap string Value := {[keyTokenTTL := VString "768h"]}.

(** An update whose token lifetime is above the ceiling of [backendOf] and
    whose claim list holds a reserved claim. *)
Definition overCeilingUpdate : gmap string Value :=
  <[keyTokenTTL := VString "1000h"]> {[keyAllowedClaims := VStringSlice ["exp"]]}.

(** An update whose token lifetime alone is above the ceiling. *)
Definition thousandHoursUpdate : gmap string Value :=
  {[keyTokenTTL := VString "1000h"]}.

(** An update that brings the token lifetime down to one hour. *)
Definition hourUpdate : gmap string Value := {[keyTokenTTL := VString "1h"]}.

(** A storage that holds [longLived]. *)
Definition longLivedStorage : Storage := mkStorage (Some longLived) None None.

Definition backendOf (policy : Policy) : backend :=
  {| id := "b1"; MaxLeaseTTL := 768 * GoTime.Hour;
     getPolicy := fun _ _ _ => Return policy |}.

End Example.

(** * Properties *)

(** ** Go integers *)

Lemma wrap_in_range (z : Z) : Go.in_range z -> Go.wrap z = z.
Proof.
  unfold Go.in_range, Go.wrap, Go.int_min, Go.int_max. intros Hz.
  rewrite Z.mod_small; lia.
Qed.

(** ** The key set *)

Section JwksProperties.

Context `{Env}.
Variables (b : backend) (config : Config) (policy : Policy).

Lemma keyCount_window :
  valid_window policy ->
  keyCount policy = LatestVersion policy - MinDecryptionVersion policy + 1.
Proof.
  unfold valid_window, keyCount. intros (Hmin & Hle & Hmax).
  assert (Hb : Go.int_max = 9223372036854775807) by reflexivity.
  assert (Hc : Go.int_min = -9223372036854775808) by reflexivity.
  rewrite (wrap_in_range (_ - _)) by (unfold Go.in_range; lia).
  apply wrap_in_range. unfold Go.in_range. lia.
Qed.

Lemma visitVersion_skip (version : Z) (jwkSet : list JSONWebKey) (keyIdx : Z) :
  published b config policy version = None ->
  visitVersion b config policy version jwkSet keyIdx = Return (jwkSet, keyIdx).
Proof.
  unfold published, visitVersion. intros Hp.
  destruct (Keys policy !! Go.Itoa version) as [key|]; [|reflexivity].
  destruct (keyBranch policy key); [reflexivity|discriminate].
Qed.

Lemma visitVersion_write (version : Z) (pre : list JSONWebKey) (m : nat)
    (e : JSONWebKey) :
  published b config policy version = Some e ->
  Z.of_nat (length pre) < Go.int_max ->
  visitVersion b config policy version
    (pre ++ replicate (S m) zeroJWK) (Z.of_nat (length pre))
  = Return (pre ++ e :: replicate m zeroJWK, Z.of_nat (length pre) + 1).
Proof.
  unfold published, visitVersion. intros Hp Hlen.
  destruct (Keys policy !! Go.Itoa version) as [key|]; [|discriminate].
  destruct (keyBranch policy key) as [|assigned]; [discriminate|].
  injection Hp as <-. unfold writeSlot.
  rewrite length_app, length_replicate.
  replace ((0 <=? Z.of_nat (length pre))
           && (Z.of_nat (length pre) <? Z.of_nat (length pre + S m))) with true
    by (symmetry; apply andb_true_iff; split; [apply Z.leb_le|apply Z.ltb_lt]; lia).
  cbn [obind]. rewrite Nat2Z.id.
  replace (length pre) with (length pre + 0)%nat at 1 by lia.
  rewrite alter_app_r. cbn [replicate alter list_alter].
  rewrite wrap_in_range; [reflexivity|].
  unfold Go.in_range. assert (Go.int_min < 0) by reflexivity. lia.
Qed.

Lemma length_published_le (version : Z) (n : nat) :
  (length (omap (published b config policy) (seqZ version (Z.of_nat n))) <= n)%nat.
Proof.
  revert version. induction n as [|n IH]; intros version.
  - reflexivity.
  - rewrite seqZ_cons by lia. cbn [omap list_omap].
    replace (Z.pred (Z.of_nat (S n))) with (Z.of_nat n) by lia.
    specialize (IH (Z.succ version)).
    destruct (published b config policy version); cbn [length]; lia.
Qed.

(** The loop, from any of its states: [pre] has been written, [m] slots
    are left, [n] versions remain. *)
Lemma forVersions_run (n : nat) :
  forall (fuel : nat) (version : Z) (pre : list JSONWebKey) (m : nat),
    (n <= fuel)%nat ->
    (n <= m)%nat ->
    LatestVersion policy = version + Z.of_nat n - 1 ->
    Go.int_min <= version ->
    LatestVersion policy < Go.int_max ->
    Z.of_nat (length pre + m) <= Go.int_max ->
    forVersions fuel b config policy version
      (pre ++ replicate m zeroJWK) (Z.of_nat (length pre))
    = Some (Return
        (pre ++ omap (published b config policy) (seqZ version (Z.of_nat n))
             ++ replicate
                  (m - length (omap (published b config policy)
                                 (seqZ version (Z.of_nat n))))
                  zeroJWK)).
Proof.
  induction n as [|n IH]; intros fuel version pre m Hfuel Hm Hlast Hlo Hhi Hcap.
  - assert (Hexit : (version <=? LatestVersion policy) = false)
      by (apply Z.leb_gt; lia).
    destruct fuel; cbn [forVersions]; rewrite Hexit;
      cbn [seqZ omap list_omap length app]; rewrite Nat.sub_0_r; reflexivity.
  - destruct fuel as [|fuel]; [lia|].
    destruct m as [|m]; [lia|].
    assert (Henter : (version <=? LatestVersion policy) = true)
      by (apply Z.leb_le; lia).
    cbn [forVersions]. rewrite Henter.
    rewrite seqZ_cons by lia. cbn [omap list_omap].
    replace (Z.pred (Z.of_nat (S n))) with (Z.of_nat n) by lia.
    assert (Hnext : Go.wrap (version + 1) = Z.succ version)
      by (rewrite wrap_in_range; [lia|unfold Go.in_range; lia]).
    destruct (published b config policy version) as [e|] eqn:Hp.
    + rewrite (visitVersion_write _ _ _ _ Hp) by lia.
      rewrite Hnext.
      replace (Z.of_nat (length pre) + 1) with (Z.of_nat (length (pre ++ [e])))
        by (rewrite length_app; cbn [length]; lia).
      replace (pre ++ e :: replicate m zeroJWK)
        with ((pre ++ [e]) ++ replicate m zeroJWK)
        by (rewrite <- app_assoc; reflexivity).
      rewrite (IH fuel (Z.succ version) (pre ++ [e]) m);
        [|lia|lia|lia|lia|lia|rewrite length_app; cbn [length]; lia].
      rewrite <- app_assoc. reflexivity.
    + rewrite (visitVersion_skip _ _ _ Hp). rewrite Hnext.
      pose proof (length_published_le (Z.succ version) n) as Hlen.
      rewrite (IH fuel (Z.succ version) pre (S m)); [reflexivity|lia..].
Qed.

End JwksProperties.

Section KeySetLayout.

Context `{Env}.

(** What [getPublicKeys] returns on a valid window, given fuel for every
    version of it: the written elements, then zero values up to the
    length the slice was made with. *)
Lemma getPublicKeys_run (fuel : nat) (b : backend) (stg : Storage)
    (mount : string) (config : Config) (policy : Policy) :
  fst (getConfig stg) = Return config ->
  getPolicy b stg config mount = Return policy ->
  valid_window policy ->
  (Z.to_nat (keyCount policy) <= fuel)%nat ->
  getPublicKeys fuel b stg mount
  = Some (Return (mkJWKSet
      (emitted b config policy
       ++ replicate (Z.to_nat (keyCount policy) - length (emitted b config policy))
            zeroJWK))).
Proof.
  intros Hconfig Hpolicy Hwin Hfuel.
  pose proof (keyCount_window policy Hwin) as Hcount.
  pose proof Hwin as (Hmin & Hle & Hmax).
  unfold getPublicKeys. rewrite Hconfig, Hpolicy.
  replace (keyCount policy <? 0) with false by (symmetry; apply Z.ltb_ge; lia).
  pose proof (forVersions_run b config policy (Z.to_nat (keyCount policy)) fuel
                (MinDecryptionVersion policy) [] (Z.to_nat (keyCount policy))) as Hrun.
  cbn [app length] in Hrun. change (Z.of_nat 0) with 0 in Hrun. rewrite Hrun.
  - unfold emitted. rewrite Z2Nat.id, Hcount by lia. reflexivity.
  - exact Hfuel.
  - lia.
  - lia.
  - assert (Go.int_min < 0) by reflexivity. lia.
  - exact Hmax.
  - lia.
Qed.

End KeySetLayout.

(** C1. The claimed size law makes the size reach
    [LatestVersion - MinDecryptionVersion + 1] only when the window has no
    gap and no decode failure. Evaluation on a window from 1 to 3 whose
    version 2 is missing: the returned list has 3 elements, the size of the
    window, although there is a gap. *)
Theorem getPublicKeys_size_with_gap `{Env} :
  exists keys : list JSONWebKey,
    getPublicKeys 3 (Example.backendOf Example.sparsePolicy)
      Example.emptyStorage "jwt/" = Some (Return (mkJWKSet keys))
    /\ Z.of_nat (length keys)
       = LatestVersion Example.sparsePolicy
         - MinDecryptionVersion Example.sparsePolicy + 1
    /\ has_gap Example.sparsePolicy.
Proof.
  eexists. split; [reflexivity|]. split; [reflexivity|].
  exists 2. split; [cbn; lia|reflexivity].
Qed.

(** C2. Evaluation on the scenario itself ([MinDecryptionVersion = 2],
    [LatestVersion = 4], version 3 not in the map): the returned list has
    three elements, those of versions 2 and 4 and then a zero value, not
    two. *)
Theorem getPublicKeys_pruned_scenario `{Env} :
  Keys Example.prunedPolicy !! Go.Itoa 3 = None
  /\ getPublicKeys 3 (Example.backendOf Example.prunedPolicy)
       Example.emptyStorage "jwt/"
     = Some (Return (mkJWKSet
         [ {| Key := Some (rsa_PublicKey_ref {| rsa_N := 3233; rsa_E := 65537 |});
              KeyID := createKeyId "b1" "jwt" 2;
              Algorithm := SignatureAlgorithm DefaultConfig;
              Use := "sig" |};
           {| Key := Some (rsa_PublicKey_ref {| rsa_N := 3127; rsa_E := 65537 |});
              KeyID := createKeyId "b1" "jwt" 4;
              Algorithm := SignatureAlgorithm DefaultConfig;
              Use := "sig" |};
           zeroJWK ])).
Proof. split; reflexivity. Qed.

(** C3. Evaluation on a policy of a family other than Ed25519 whose only
    version has an empty formatted public key and no RSA key structure: the
    version does contribute an element, with its key id, the configured
    algorithm and [use = "sig"], and no key. *)
Theorem getPublicKeys_entry_without_key `{Env} :
  Type_ Example.barePolicy <> KeyType_ED25519
  /\ Keys Example.barePolicy !! Go.Itoa 1 = Some Example.bareEntry
  /\ FormattedPublicKey Example.bareEntry = ""
  /\ RSAKey Example.bareEntry = None
  /\ getPublicKeys 1 (Example.backendOf Example.barePolicy)
       Example.emptyStorage "jwt/"
     = Some (Return (mkJWKSet
         [ {| Key := None;
              KeyID := createKeyId "b1" "jwt" 1;
              Algorithm := SignatureAlgorithm DefaultConfig;
              Use := "sig" |} ])).
Proof. repeat split; try reflexivity. discriminate. Qed.

(** C5. Evaluation on the window from 2 to 4 without version 3: the
    returned key set has an element whose [use] is not ["sig"] (it is
    empty, as is its algorithm). *)
Theorem getPublicKeys_entry_without_use `{Env} :
  exists (keys : list JSONWebKey) (e : JSONWebKey),
    getPublicKeys 3 (Example.backendOf Example.prunedPolicy)
      Example.emptyStorage "jwt/" = Some (Return (mkJWKSet keys))
    /\ keys !! 2%nat = Some e
    /\ Use e <> "sig"
    /\ Use e = ""
    /\ Algorithm e = "".
Proof.
  eexists _, _. split; [reflexivity|]. split; [reflexivity|].
  split; [discriminate|split; reflexivity].
Qed.

(** ** The configuration write *)

Section ConfigProperties.

Context `{Env}.

(** [pathConfigWrite] with the two monads unfolded: the only path that
    changes the storage is the last one. *)
Lemma pathConfigWrite_unfold (b : backend) (d : gmap string Value) (stg : Storage) :
  pathConfigWrite b d stg =
  match getFailure stg with
  | Some err => (Reject None err, stg)
  | None =>
      match applyFields d (default DefaultConfig (entry stg)) with
      | Return config =>
          if TokenTTL config >? MaxLeaseTTL b then (ttlRejection, stg)
          else
            match putFailure stg with
            | Some err => (Reject None err, stg)
            | None =>
                (configResponse config,
                 mkStorage (Some config) (getFailure stg) (putFailure stg))
            end
      | Reject resp err => (Reject resp err, stg)
      | Panic reason => (Panic reason, stg)
      end
  end.
Proof.
  destruct stg as [stored getF putF].
  unfold pathConfigWrite, hbind, getConfig, pure_step, saveConfig.
  cbn [getFailure putFailure entry].
  destruct getF; [reflexivity|].
  destruct (applyFields d _) as [config| |]; [|reflexivity..].
  destruct (TokenTTL config >? MaxLeaseTTL b); [reflexivity|].
  destruct putF; reflexivity.
Qed.

Lemma getConfig_Return (stg : Storage) (current : Config) :
  fst (getConfig stg) = Return current ->
  getFailure stg = None /\ default DefaultConfig (entry stg) = current.
Proof.
  unfold getConfig. destruct (getFailure stg); cbn [fst]; [discriminate|].
  intros [= <-]. split; reflexivity.
Qed.

(** A write that does not succeed leaves the storage as it was. *)
Lemma pathConfigWrite_failure_keeps_storage (b : backend) (d : gmap string Value)
    (stg : Storage) :
  succeeded (fst (pathConfigWrite b d stg)) = false ->
  snd (pathConfigWrite b d stg) = stg.
Proof.
  rewrite pathConfigWrite_unfold.
  destruct (getFailure stg); [reflexivity|].
  destruct (applyFields d _) as [config| |]; [|reflexivity..].
  destruct (TokenTTL config >? MaxLeaseTTL b); [reflexivity|].
  destruct (putFailure stg); [reflexivity|].
  cbn. discriminate.
Qed.

(** When the field blocks fail, or the ceiling is exceeded, the write
    does not succeed. *)
Lemma pathConfigWrite_fields_fail (b : backend) (d : gmap string Value)
    (stg : Storage) (current : Config) :
  fst (getConfig stg) = Return current ->
  succeeded (applyFields d current) = false ->
  succeeded (fst (pathConfigWrite b d stg)) = false.
Proof.
  intros [Hget <-]%getConfig_Return Hfail.
  rewrite pathConfigWrite_unfold, Hget.
  destruct (applyFields d _); [discriminate|reflexivity..].
Qed.

Lemma pathConfigWrite_over_ceiling (b : backend) (d : gmap string Value)
    (stg : Storage) (current candidate : Config) :
  fst (getConfig stg) = Return current ->
  applyFields d current = Return candidate ->
  TokenTTL candidate > MaxLeaseTTL b ->
  pathConfigWrite b d stg = (ttlRejection, stg).
Proof.
  intros [Hget <-]%getConfig_Return Hfields Hover.
  rewrite pathConfigWrite_unfold, Hget, Hfields.
  replace (TokenTTL candidate >? MaxLeaseTTL b) with true; [reflexivity|].
  symmetry. apply Z.gtb_lt. lia.
Qed.

(** A successful run of the field blocks is a successful run of each. *)
Lemma applyFields_Return (d : gmap string Value) (c0 candidate : Config) :
  applyFields d c0 = Return candidate ->
  exists c1 c2 c3 c4 c5 c6 c7 c8 c9 c10,
    updateSignatureAlgorithm d c0 = Return c1
    /\ updateRSAKeyBits d c1 = Return c2
    /\ updateRotationPeriod d c2 = Return c3
    /\ updateTokenTTL d c3 = Return c4
    /\ updateBool keySetIAT withSetIAT d c4 = Return c5
    /\ updateBool keySetJTI withSetJTI d c5 = Return c6
    /\ updateBool keySetNBF withSetNBF d c6 = Return c7
    /\ updatePattern keyAudiencePattern withAudiencePattern AudiencePattern
         "invalid audience pattern" d c7 = Return c8
    /\ updatePattern keySubjectPattern withSubjectPattern SubjectPattern
         "invalid subject pattern" d c8 = Return c9
    /\ updateMaxAudiences d c9 = Return c10
    /\ updateAllowedClaims d c10 = Return candidate.
Proof.
  unfold applyFields. intros Hrun.
  destruct (updateSignatureAlgorithm d c0) as [c1| |] eqn:E1; cbn [obind] in Hrun; [|discriminate Hrun..].
  destruct (updateRSAKeyBits d c1) as [c2| |] eqn:E2;
    cbn [obind] in Hrun; [|discriminate Hrun..].
  destruct (updateRotationPeriod d c2) as [c3| |] eqn:E3;
    cbn [obind] in Hrun; [|discriminate Hrun..].
  destruct (updateTokenTTL d c3) as [c4| |] eqn:E4;
    cbn [obind] in Hrun; [|discriminate Hrun..].
  destruct (updateBool keySetIAT withSetIAT d c4) as [c5| |] eqn:E5;
    cbn [obind] in Hrun; [|discriminate Hrun..].
  destruct (updateBool keySetJTI withSetJTI d c5) as [c6| |] eqn:E6;
    cbn [obind] in Hrun; [|discriminate Hrun..].
  destruct (updateBool keySetNBF withSetNBF d c6) as [c7| |] eqn:E7;
    cbn [obind] in Hrun; [|discriminate Hrun..].
  destruct (updatePattern keyAudiencePattern _ _ _ d c7) as [c8| |] eqn:E8;
    cbn [obind] in Hrun; [|discriminate Hrun..].
  destruct (updatePattern keySubjectPattern _ _ _ d c8) as [c9| |] eqn:E9;
    cbn [obind] in Hrun; [|discriminate Hrun..].
  destruct (updateMaxAudiences d c9) as [c10| |] eqn:E10;
    cbn [obind] in Hrun; [|discriminate Hrun..].
  exists c1, c2, c3, c4, c5, c6, c7, c8, c9, c10. repeat split; assumption.
Qed.

Lemma reservedAmong_finds (claims : list string) (claim : string) :
  In claim claims ->
  stringInSlice claim ReservedClaims = true ->
  reservedAmong claims <> None.
Proof.
  induction claims as [|c rest IH]; intros Hin Hres; [destruct Hin|].
  cbn [reservedAmong].
  destruct (stringInSlice c ReservedClaims) eqn:Hc; [discriminate|].
  destruct Hin as [->|Hin]; [congruence|]. apply IH; assumption.
Qed.

Lemma reservedAmong_none (claims : list string) :
  Forall (fun claim => stringInSlice claim ReservedClaims = false) claims ->
  reservedAmong claims = None.
Proof.
  induction 1 as [|c rest Hc _ IH]; [reflexivity|].
  cbn [reservedAmong]. rewrite Hc. exact IH.
Qed.

(** A per-field check that fails makes the field blocks fail. *)
Lemma check_fails_fields (b : backend) (d : gmap string Value) (current : Config) :
  check_fails b d current ->
  (exists candidate,
      applyFields d current = Return candidate
      /\ TokenTTL candidate > MaxLeaseTTL b)
  \/ succeeded (applyFields d current) = false.
Proof.
  intros Hcheck.
  destruct Hcheck as [v Hd Hv|name Hd Hno|v Hd Hv|bits Hd Hno|s err Hd Hp|s err Hd Hp
                     |s err Hd Hp|s err Hd Hp|claims claim Hd Hin Hres|candidate Hrun Hover];
    [right..|left; exists candidate; split; assumption];
    destruct (applyFields d current) as [candidate| |] eqn:Hrun; try reflexivity;
    exfalso;
    apply applyFields_Return in Hrun
      as (c1 & c2 & c3 & c4 & c5 & c6 & c7 & c8 & c9 & c10
          & E1 & E2 & E3 & E4 & E5 & E6 & E7 & E8 & E9 & E10 & E11).
  - unfold updateSignatureAlgorithm, GetOk in E1. rewrite Hd in E1.
    destruct v; try discriminate E1. eapply Hv; reflexivity.
  - unfold updateSignatureAlgorithm, GetOk in E1. rewrite Hd, Hno in E1.
    discriminate E1.
  - unfold updateRSAKeyBits, GetOk in E2. rewrite Hd in E2.
    destruct v; try discriminate E2. eapply Hv; reflexivity.
  - unfold updateRSAKeyBits, GetOk in E2. rewrite Hd, Hno in E2. discriminate E2.
  - unfold updateRotationPeriod, GetOk in E3. rewrite Hd, Hp in E3. discriminate E3.
  - unfold updateTokenTTL, GetOk in E4. rewrite Hd, Hp in E4. discriminate E4.
  - unfold updatePattern, GetOk in E8. rewrite Hd in E8. cbn in E8.
    rewrite Hp in E8. discriminate E8.
  - unfold updatePattern, GetOk in E9. rewrite Hd in E9. cbn in E9.
    rewrite Hp in E9. discriminate E9.
  - unfold updateAllowedClaims, GetOk in E11. rewrite Hd in E11.
    pose proof (reservedAmong_finds claims claim Hin Hres) as Hsome.
    destruct (reservedAmong claims); [discriminate E11|congruence].
Qed.

(** The blocks other than the one of [jwt_ttl] leave [TokenTTL] alone. *)
Lemma applyFields_keeps_ttl (d : gmap string Value) (c0 candidate : Config) :
  d !! keyTokenTTL = None ->
  applyFields d c0 = Return candidate ->
  TokenTTL candidate = TokenTTL c0.
Proof.
  intros Habsent Hrun.
  apply applyFields_Return in Hrun
    as (c1 & c2 & c3 & c4 & c5 & c6 & c7 & c8 & c9 & c10
        & E1 & E2 & E3 & E4 & E5 & E6 & E7 & E8 & E9 & E10 & E11).
  assert (H1 : TokenTTL c1 = TokenTTL c0)
    by (unfold updateSignatureAlgorithm in E1; repeat case_match;
        try discriminate E1; injection E1 as <-; reflexivity).
  assert (H2 : TokenTTL c2 = TokenTTL c1)
    by (unfold updateRSAKeyBits in E2; repeat case_match;
        try discriminate E2; injection E2 as <-; reflexivity).
  assert (H3 : TokenTTL c3 = TokenTTL c2)
    by (unfold updateRotationPeriod in E3; repeat case_match;
        try discriminate E3; injection E3 as <-; reflexivity).
  assert (H4 : TokenTTL c4 = TokenTTL c3)
    by (unfold updateTokenTTL, GetOk in E4; rewrite Habsent in E4;
        injection E4 as <-; reflexivity).
  assert (H5 : TokenTTL c5 = TokenTTL c4)
    by (unfold updateBool in E5; repeat case_match;
        try discriminate E5; injection E5 as <-; reflexivity).
  assert (H6 : TokenTTL c6 = TokenTTL c5)
    by (unfold updateBool in E6; repeat case_match;
        try discriminate E6; injection E6 as <-; reflexivity).
  assert (H7 : TokenTTL c7 = TokenTTL c6)
    by (unfold updateBool in E7; repeat case_match;
        try discriminate E7; injection E7 as <-; reflexivity).
  assert (H8 : TokenTTL c8 = TokenTTL c7)
    by (unfold updatePattern in E8; repeat case_match;
        try discriminate E8; injection E8 as <-; reflexivity).
  assert (H9 : TokenTTL c9 = TokenTTL c8)
    by (unfold updatePattern in E9; repeat case_match;
        try discriminate E9; injection E9 as <-; reflexivity).
  assert (H10 : TokenTTL c10 = TokenTTL c9)
    by (unfold updateMaxAudiences in E10; repeat case_match;
        try discriminate E10; injection E10 as <-; reflexivity).
  assert (H11 : TokenTTL candidate = TokenTTL c10)
    by (unfold updateAllowedClaims in E11; repeat case_match;
        try discriminate E11; injection E11 as <-; reflexivity).
  congruence.
Qed.

End ConfigProperties.

(** C4. A configuration write is all-or-nothing: whenever one of the checks
    fails for the update (a field of the wrong type, an algorithm or a key
    size outside the allowed set, a duration that does not parse, a pattern
    that does not compile, a reserved claim among the allowed claims, a token
    lifetime above the ceiling), the write does not succeed and the storage
    after the call is the storage before it. *)
Theorem pathConfigWrite_all_or_nothing `{Env} (b : backend) (d : gmap string Value)
    (stg : Storage) (current : Config) :
  fst (getConfig stg) = Return current ->
  check_fails b d current ->
  succeeded (fst (pathConfigWrite b d stg)) = false
  /\ snd (pathConfigWrite b d stg) = stg.
Proof.
  intros Hget Hcheck.
  assert (Hfail : succeeded (fst (pathConfigWrite b d stg)) = false).
  { destruct (check_fails_fields b d current Hcheck)
      as [(candidate & Hrun & Hover)|Hfields].
    - rewrite (pathConfigWrite_over_ceiling b d stg current candidate Hget Hrun Hover).
      reflexivity.
    - exact (pathConfigWrite_fields_fail b d stg current Hget Hfields). }
  split; [exact Hfail|].
  apply pathConfigWrite_failure_keeps_storage. exact Hfail.
Qed.

(** Witness of C4: an update with a valid algorithm, a flag, and an allowed
    claims list that holds the reserved claim [exp]. *)
Lemma pathConfigWrite_all_or_nothing_witness :
  succeeded (fst (@pathConfigWrite Example.env
                    (Example.backendOf Example.prunedPolicy)
                    (<[keySignatureAlgorithm := VString "ES512"]>
                       (<[keySetIAT := VBool false]>
                          {[keyAllowedClaims := VStringSlice ["email"; "exp"]]}))
                    Example.emptyStorage)) = false
  /\ snd (@pathConfigWrite Example.env
            (Example.backendOf Example.prunedPolicy)
            (<[keySignatureAlgorithm := VString "ES512"]>
               (<[keySetIAT := VBool false]>
                  {[keyAllowedClaims := VStringSlice ["email"; "exp"]]}))
            Example.emptyStorage) = Example.emptyStorage.
Proof.
  apply (@pathConfigWrite_all_or_nothing Example.env
           (Example.backendOf Example.prunedPolicy) _ Example.emptyStorage
           Example.defaults).
  - reflexivity.
  - apply (@reserved_claim_allowed Example.env _ _ _ ["email"; "exp"] "exp").
    + reflexivity.
    + right. left. reflexivity.
    + reflexivity.
Defined.

(** C10. The comparison with the ceiling is made on every write: when the
    stored token lifetime is above the ceiling and the update does not
    mention [jwt_ttl], the write does not succeed and the storage is
    unchanged; if the fields it does mention pass their checks, the
    rejection is the one that names [jwt_ttl]. *)
Theorem pathConfigWrite_checks_stored_ttl `{Env} (b : backend)
    (d : gmap string Value) (stg : Storage) (current : Config) :
  entry stg = Some current ->
  getFailure stg = None ->
  d !! keyTokenTTL = None ->
  TokenTTL current > MaxLeaseTTL b ->
  succeeded (fst (pathConfigWrite b d stg)) = false
  /\ snd (pathConfigWrite b d stg) = stg
  /\ (forall candidate,
        applyFields d current = Return candidate ->
        pathConfigWrite b d stg = (ttlRejection, stg)).
Proof.
  intros Hentry Hget Habsent Hover.
  assert (Hcurrent : fst (getConfig stg) = Return current)
    by (unfold getConfig; rewrite Hget, Hentry; reflexivity).
  assert (Hrejected : forall candidate,
             applyFields d current = Return candidate ->
             pathConfigWrite b d stg = (ttlRejection, stg)).
  { intros candidate Hrun.
    apply (pathConfigWrite_over_ceiling b d stg current candidate Hcurrent Hrun).
    rewrite (applyFields_keeps_ttl d current candidate Habsent Hrun). exact Hover. }
  assert (Hfail : succeeded (fst (pathConfigWrite b d stg)) = false).
  { destruct (applyFields d current) as [candidate| |] eqn:Hrun.
    - rewrite (Hrejected candidate eq_refl). reflexivity.
    - apply (pathConfigWrite_fields_fail b d stg current Hcurrent).
      rewrite Hrun. reflexivity.
    - apply (pathConfigWrite_fields_fail b d stg current Hcurrent).
      rewrite Hrun. reflexivity. }
  split; [exact Hfail|]. split; [|exact Hrejected].
  apply pathConfigWrite_failure_keeps_storage. exact Hfail.
Qed.

(** Witness of C10: a stored lifetime of 1000 hours, a ceiling of 768, and
    an update of [set_iat] alone. *)
Lemma pathConfigWrite_checks_stored_ttl_witness :
  succeeded (fst (@pathConfigWrite Example.env
                    (Example.backendOf Example.prunedPolicy)
                    {[keySetIAT := VBool false]}
                    (mkStorage (Some Example.longLived) None None))) = false
  /\ snd (@pathConfigWrite Example.env
            (Example.backendOf Example.prunedPolicy)
            {[keySetIAT := VBool false]}
            (mkStorage (Some Example.longLived) None None))
     = mkStorage (Some Example.longLived) None None
  /\ (forall candidate,
        @applyFields Example.env {[keySetIAT := VBool false]} Example.longLived
        = Return candidate ->
        @pathConfigWrite Example.env (Example.backendOf Example.prunedPolicy)
          {[keySetIAT := VBool false]}
          (mkStorage (Some Example.longLived) None None)
        = (ttlRejection, mkStorage (Some Example.longLived) None None)).
Proof.
  apply (@pathConfigWrite_checks_stored_ttl Example.env
           (Example.backendOf Example.prunedPolicy) {[keySetIAT := VBool false]}
           (mkStorage (Some Example.longLived) None None) Example.longLived).
  - reflexivity.
  - reflexivity.
  - reflexivity.
  - reflexivity.
Defined.

(** C8. A [key_ttl] or [jwt_ttl] that does not parse ends the write with no
    response at all and the parser's error ([return nil, err]), where a
    disallowed [sig_alg] ends it with an error response and
    [logical.ErrInvalidRequest]; in both cases the storage is unchanged. *)
Theorem pathConfigWrite_unparsable_duration `{Env} (b : backend) (stg : Storage)
    (s name : string) (err : error) :
  getFailure stg = None ->
  time_ParseDuration s = inr err ->
  stringInSlice name AllowedSignatureAlgorithmNames = false ->
  pathConfigWrite b {[keyRotationDuration := VString s]} stg = (Reject None err, stg)
  /\ pathConfigWrite b {[keyTokenTTL := VString s]} stg = (Reject None err, stg)
  /\ pathConfigWrite b {[keySignatureAlgorithm := VString name]} stg
     = (Reject
          (Some (ErrorResponse
                   "unknown/unsupported signature algorithm, must be one of %s"
                   [VStringSlice AllowedSignatureAlgorithmNames]))
          ErrInvalidRequest,
        stg).
Proof.
  intros Hget Hparse Hname.
  repeat split; rewrite pathConfigWrite_unfold, Hget;
    unfold applyFields, updateSignatureAlgorithm, updateRSAKeyBits,
      updateRotationPeriod, updateTokenTTL, GetOk.
  - rewrite !lookup_singleton_ne by discriminate. cbn [obind].
    rewrite lookup_singleton_eq, Hparse. reflexivity.
  - rewrite !lookup_singleton_ne by discriminate. cbn [obind].
    rewrite lookup_singleton_eq, Hparse. reflexivity.
  - rewrite lookup_singleton_eq, Hname. reflexivity.
Qed.

(** Witness of C8: the duration [soon] and the algorithm [XX]. *)
Lemma pathConfigWrite_unparsable_duration_witness :
  @pathConfigWrite Example.env (Example.backendOf Example.prunedPolicy)
    {[keyRotationDuration := VString "soon"]} Example.emptyStorage
  = (Reject None (ErrLib "time" "invalid duration soon"), Example.emptyStorage)
  /\ @pathConfigWrite Example.env (Example.backendOf Example.prunedPolicy)
       {[keyTokenTTL := VString "soon"]} Example.emptyStorage
     = (Reject None (ErrLib "time" "invalid duration soon"), Example.emptyStorage)
  /\ @pathConfigWrite Example.env (Example.backendOf Example.prunedPolicy)
       {[keySignatureAlgorithm := VString "XX"]} Example.emptyStorage
     = (Reject
          (Some (ErrorResponse
                   "unknown/unsupported signature algorithm, must be one of %s"
                   [VStringSlice (@AllowedSignatureAlgorithmNames Example.env)]))
          ErrInvalidRequest,
        Example.emptyStorage).
Proof.
  apply (@pathConfigWrite_unparsable_duration Example.env
           (Example.backendOf Example.prunedPolicy) Example.emptyStorage
           "soon" "XX" (ErrLib "time" "invalid duration soon")).
  - reflexivity.
  - reflexivity.
  - reflexivity.
Defined.

(** ** Write, then read *)

Section RoundTrip.

Context `{Env}.

(** The configuration a request with every field produces from [current]:
    every field of the record but [Issuer] comes from the request. *)
Lemma applyFields_fieldData (b : backend) (v : FieldValues)
    (rotation ttl : Duration) (current : Config) :
  legal_values b v rotation ttl ->
  applyFields (fieldData v) current
  = Return {| SignatureAlgorithm := sig_alg v; RSAKeyBits := rsa_key_bits v;
              KeyRotationPeriod := rotation; TokenTTL := ttl;
              SetIAT := set_iat v; SetJTI := set_jti v; SetNBF := set_nbf v;
              Issuer := Issuer current;
              AudiencePattern := audience_pattern v;
              SubjectPattern := subject_pattern v;
              MaxAudiences := max_audiences v;
              AllowedClaims := allowed_claims v |}.
Proof.
  intros (Halg & Hbits & Hrot & Httl & _ & Haud & Hsub & Hclaims).
  unfold applyFields, updateSignatureAlgorithm, updateRSAKeyBits,
    updateRotationPeriod, updateTokenTTL, updateBool, updatePattern,
    updateMaxAudiences, updateAllowedClaims, GetOk.
  rewrite (eq_refl : fieldData v !! keySignatureAlgorithm = Some (VString (sig_alg v))).
  rewrite Halg. cbn [negb obind].
  rewrite (eq_refl : fieldData v !! keyRSAKeyBits = Some (VInt (rsa_key_bits v))).
  rewrite Hbits. cbn [negb obind].
  rewrite (eq_refl : fieldData v !! keyRotationDuration = Some (VString (key_ttl v))).
  rewrite Hrot. cbn [obind].
  rewrite (eq_refl : fieldData v !! keyTokenTTL = Some (VString (jwt_ttl v))).
  rewrite Httl. cbn [obind].
  rewrite (eq_refl : fieldData v !! keySetIAT = Some (VBool (set_iat v))).
  cbn [obind].
  rewrite (eq_refl : fieldData v !! keySetJTI = Some (VBool (set_jti v))).
  cbn [obind].
  rewrite (eq_refl : fieldData v !! keySetNBF = Some (VBool (set_nbf v))).
  cbn [obind].
  rewrite (eq_refl : fieldData v !! keyAudiencePattern
                     = Some (VString (audience_pattern v))).
  cbn [withAudiencePattern AudiencePattern]. rewrite Haud. cbn [obind].
  rewrite (eq_refl : fieldData v !! keySubjectPattern
                     = Some (VString (subject_pattern v))).
  cbn [withSubjectPattern SubjectPattern]. rewrite Hsub. cbn [obind].
  rewrite (eq_refl : fieldData v !! keyMaxAllowedAudiences
                     = Some (VInt (max_audiences v))).
  cbn [obind].
  rewrite (eq_refl : fieldData v !! keyAllowedClaims
                     = Some (VStringSlice (allowed_claims v))).
  rewrite (reservedAmong_none _ Hclaims).
  reflexivity.
Qed.

End RoundTrip.

(** C7, as the code has it. For every set of legal field values, and a
    storage that works, a write that sets every field followed by a read
    returns exactly the written [sig_alg], [rsa_key_bits], [set_iat],
    [set_jti], [set_nbf], [audience_pattern], [subject_pattern],
    [max_audiences] and [allowed_claims]; [key_ttl] and [jwt_ttl] come back
    as [Duration.String] of the durations the written strings parse to. *)
Theorem config_round_trip `{Env} (b : backend) (stg : Storage) (v : FieldValues)
    (rotation ttl : Duration) :
  getFailure stg = None ->
  putFailure stg = None ->
  legal_values b v rotation ttl ->
  exists (resp : Response) (stg' : Storage) (data : gmap string Value),
    pathConfigWrite b (fieldData v) stg = (Return resp, stg')
    /\ fst (pathConfigRead stg') = Return (DataResponse data)
    /\ data !! keySignatureAlgorithm = Some (VString (sig_alg v))
    /\ data !! keyRSAKeyBits = Some (VInt (rsa_key_bits v))
    /\ data !! keySetIAT = Some (VBool (set_iat v))
    /\ data !! keySetJTI = Some (VBool (set_jti v))
    /\ data !! keySetNBF = Some (VBool (set_nbf v))
    /\ data !! keyAudiencePattern = Some (VString (audience_pattern v))
    /\ data !! keySubjectPattern = Some (VString (subject_pattern v))
    /\ data !! keyMaxAllowedAudiences = Some (VInt (max_audiences v))
    /\ data !! keyAllowedClaims = Some (VStringSlice (allowed_claims v))
    /\ data !! keyRotationDuration = Some (VString (Duration_String rotation))
    /\ data !! keyTokenTTL = Some (VString (Duration_String ttl)).
Proof.
  intros Hget Hput Hlegal.
  pose proof Hlegal as (_ & _ & _ & _ & Hceiling & _).
  rewrite pathConfigWrite_unfold, Hget, Hput.
  rewrite (applyFields_fieldData b v rotation ttl _ Hlegal).
  cbn [TokenTTL].
  replace (ttl >? MaxLeaseTTL b) with false
    by (symmetry; rewrite Z.gtb_ltb; apply Z.ltb_ge; lia).
  unfold configResponse.
  eexists _, _, _. split; [reflexivity|].
  split; [reflexivity|].
  repeat split; reflexivity.
Qed.

(** Witness of C7: the request [Example.fullUpdate], which has
    [max_audiences = -1]. *)
Lemma config_round_trip_witness :
  exists (resp : Response) (stg' : Storage) (data : gmap string Value),
    @pathConfigWrite Example.env (Example.backendOf Example.prunedPolicy)
      (fieldData Example.fullUpdate) Example.emptyStorage = (Return resp, stg')
    /\ fst (@pathConfigRead Example.env stg') = Return (DataResponse data)
    /\ data !! keySignatureAlgorithm = Some (VString "ES256")
    /\ data !! keyRSAKeyBits = Some (VInt 4096)
    /\ data !! keySetIAT = Some (VBool false)
    /\ data !! keySetJTI = Some (VBool true)
    /\ data !! keySetNBF = Some (VBool false)
    /\ data !! keyAudiencePattern = Some (VString "api.example.com")
    /\ data !! keySubjectPattern = Some (VString "svc-.")
    /\ data !! keyMaxAllowedAudiences = Some (VInt (-1))
    /\ data !! keyAllowedClaims = Some (VStringSlice ["email"; "groups"])
    /\ data !! keyRotationDuration
       = Some (VString (@Duration_String Example.env (48 * GoTime.Hour)))
    /\ data !! keyTokenTTL
       = Some (VString (@Duration_String Example.env (90 * GoTime.Second))).
Proof.
  apply (@config_round_trip Example.env (Example.backendOf Example.prunedPolicy)
           Example.emptyStorage Example.fullUpdate
           (48 * GoTime.Hour) (90 * GoTime.Second)).
  - reflexivity.
  - reflexivity.
  - unfold legal_values. repeat split; try reflexivity.
    + vm_compute. discriminate.
    + repeat constructor.
Defined.

(** C7, as stated, fails on [Example.fullUpdate]: its values are legal, the
    write succeeds, and the read returns [jwt_ttl = 1m30s] where [90s] was
    written (and [key_ttl = 48h0m0s] for [48h], and no [issuer]). *)
Lemma round_trip_not_exact :
  @legal_values Example.env (Example.backendOf Example.prunedPolicy)
    Example.fullUpdate (48 * GoTime.Hour) (90 * GoTime.Second)
  /\ ~ @reads_back_exactly Example.env (Example.backendOf Example.prunedPolicy)
         Example.emptyStorage Example.fullUpdate.
Proof.
  split.
  - unfold legal_values. repeat split; try reflexivity.
    + vm_compute. discriminate.
    + repeat constructor.
  - intros (resp & stg' & data & Hwrite & Hread & Hsame).
    assert (Hlegal : @legal_values Example.env (Example.backendOf Example.prunedPolicy)
                       Example.fullUpdate (48 * GoTime.Hour) (90 * GoTime.Second)).
    { unfold legal_values. repeat split; try reflexivity.
      + vm_compute. discriminate.
      + repeat constructor. }
    rewrite pathConfigWrite_unfold in Hwrite.
    cbn [getFailure putFailure entry Example.emptyStorage] in Hwrite.
    rewrite (applyFields_fieldData _ _ _ _ _ Hlegal) in Hwrite.
    change (TokenTTL _ >? MaxLeaseTTL _) with false in Hwrite.
    injection Hwrite as _ <-.
    specialize (Hsame keyTokenTTL (VString "90s") eq_refl).
    unfold pathConfigRead, hbind, getConfig, pure_step, configResponse in Hread.
    cbn [getFailure entry fst default] in Hread.
    injection Hread as <-.
    change (Some (VString "1m30s") = Some (VString "90s")) in Hsame.
    discriminate Hsame.
Qed.

(** What the read returns in that run, field by field where it differs from
    what was written. *)
Example full_update_read_back :
  let written := @pathConfigWrite Example.env (Example.backendOf Example.prunedPolicy)
                   (fieldData Example.fullUpdate) Example.emptyStorage in
  let data := responseData (fst (@pathConfigRead Example.env (snd written))) in
  succeeded (fst written) = true
  /\ data !! keyRotationDuration = Some (VString "48h0m0s")
  /\ data !! keyTokenTTL = Some (VString "1m30s")
  /\ data !! keyIssuer = None
  /\ (Issuer <$> entry (snd written)) = Some "".
Proof. repeat split; vm_compute; reflexivity. Qed.

(** * Further properties *)

(** ** The two membership helpers *)

(** X1. [stringInSlice] decides membership in the list. *)
Theorem stringInSlice_In (a : string) (l : list string) :
  stringInSlice a l = true <-> In a l.
Proof.
  induction l as [|b rest IH]; cbn [stringInSlice In].
  - split; [discriminate|intros []].
  - destruct (String.eqb b a) eqn:Hab.
    + apply String.eqb_eq in Hab. split; [left; exact Hab|reflexivity].
    + apply String.eqb_neq in Hab. rewrite IH.
      split; [right; assumption|intros [Heq|Hin]; [contradiction|assumption]].
Qed.

(** X2. [intInSlice] decides membership in the list. *)
Theorem intInSlice_In (a : Z) (l : list Z) :
  intInSlice a l = true <-> In a l.
Proof.
  induction l as [|b rest IH]; cbn [intInSlice In].
  - split; [discriminate|intros []].
  - destruct (Z.eqb b a) eqn:Hab.
    + apply Z.eqb_eq in Hab. split; [left; exact Hab|reflexivity].
    + apply Z.eqb_neq in Hab. rewrite IH.
      split; [right; assumption|intros [Heq|Hin]; [contradiction|assumption]].
Qed.

(** ** The field blocks as an overlay *)

Section Overlay.

Context `{Env}.

Lemma updateSignatureAlgorithm_pass (d : gmap string Value) (c c' : Config) :
  updateSignatureAlgorithm d c = Return c' ->
  (forall c2, updateSignatureAlgorithm d c2
              = Return (overlayString keySignatureAlgorithm withSignatureAlgorithm d c2))
  /\ (forall s, d !! keySignatureAlgorithm = Some (VString s) ->
                stringInSlice s AllowedSignatureAlgorithmNames = true).
Proof.
  unfold updateSignatureAlgorithm, overlayString, GetOk.
  destruct (d !! keySignatureAlgorithm) as [[s| | | | |]|]; try discriminate.
  - destruct (stringInSlice s AllowedSignatureAlgorithmNames) eqn:Hs;
      cbn [negb]; [|discriminate].
    intros _. split; [reflexivity|]. intros ? [= <-]. exact Hs.
  - intros _. split; [reflexivity|discriminate].
Qed.

Lemma updateRSAKeyBits_pass (d : gmap string Value) (c c' : Config) :
  updateRSAKeyBits d c = Return c' ->
  (forall c2, updateRSAKeyBits d c2
              = Return (overlayInt keyRSAKeyBits withRSAKeyBits d c2))
  /\ (forall n, d !! keyRSAKeyBits = Some (VInt n) ->
                intInSlice n AllowedRSAKeyBits = true).
Proof.
  unfold updateRSAKeyBits, overlayInt, GetOk.
  destruct (d !! keyRSAKeyBits) as [[|n| | | |]|]; try discriminate.
  - destruct (intInSlice n AllowedRSAKeyBits) eqn:Hn; cbn [negb]; [|discriminate].
    intros _. split; [reflexivity|]. intros ? [= <-]. exact Hn.
  - intros _. split; [reflexivity|discriminate].
Qed.

Lemma updateRotationPeriod_pass (d : gmap string Value) (c c' : Config) :
  updateRotationPeriod d c = Return c' ->
  forall c2, updateRotationPeriod d c2
             = Return (overlayDuration keyRotationDuration withKeyRotationPeriod d c2).
Proof.
  unfold updateRotationPeriod, overlayDuration, GetOk.
  destruct (d !! keyRotationDuration) as [[s| | | | |]|]; try discriminate.
  - destruct (time_ParseDuration s); [|discriminate]. reflexivity.
  - reflexivity.
Qed.

Lemma updateTokenTTL_pass (d : gmap string Value) (c c' : Config) :
  updateTokenTTL d c = Return c' ->
  forall c2, updateTokenTTL d c2
             = Return (overlayDuration keyTokenTTL withTokenTTL d c2).
Proof.
  unfold updateTokenTTL, overlayDuration, GetOk.
  destruct (d !! keyTokenTTL) as [[s| | | | |]|]; try discriminate.
  - destruct (time_ParseDuration s); [|discriminate]. reflexivity.
  - reflexivity.
Qed.

Lemma updateBool_pass (key : string) (set : bool -> Config -> Config)
    (d : gmap string Value) (c c' : Config) :
  updateBool key set d c = Return c' ->
  forall c2, updateBool key set d c2 = Return (overlayBool key set d c2).
Proof.
  unfold updateBool, overlayBool, GetOk.
  destruct (d !! key) as [[| |v| | |]|]; try discriminate; reflexivity.
Qed.

Lemma updatePattern_pass (key : string) (set : string -> Config -> Config)
    (get : Config -> string) (message : string)
    (d : gmap string Value) (c c' : Config) :
  (forall s c0, get (set s c0) = s) ->
  updatePattern key set get message d c = Return c' ->
  (forall c2, updatePattern key set get message d c2
              = Return (overlayString key set d c2))
  /\ (forall s, d !! key = Some (VString s) -> regexp_Compile s = None).
Proof.
  intros Hget. unfold updatePattern, overlayString, GetOk.
  destruct (d !! key) as [[s| | | | |]|]; try discriminate.
  - rewrite Hget. destruct (regexp_Compile s) eqn:Hs; [discriminate|].
    intros _. split.
    + intros c2. rewrite Hget, Hs. reflexivity.
    + intros ? [= <-]. exact Hs.
  - intros _. split; [reflexivity|discriminate].
Qed.

Lemma updateMaxAudiences_pass (d : gmap string Value) (c c' : Config) :
  updateMaxAudiences d c = Return c' ->
  forall c2, updateMaxAudiences d c2
             = Return (overlayInt keyMaxAllowedAudiences withMaxAudiences d c2).
Proof.
  unfold updateMaxAudiences, overlayInt, GetOk.
  destruct (d !! keyMaxAllowedAudiences) as [[|n| | | |]|]; try discriminate;
    reflexivity.
Qed.

Lemma updateAllowedClaims_pass (d : gmap string Value) (c c' : Config) :
  updateAllowedClaims d c = Return c' ->
  (forall c2, updateAllowedClaims d c2 = Return (overlayClaims d c2))
  /\ (forall l, d !! keyAllowedClaims = Some (VStringSlice l) ->
                reservedAmong l = None).
Proof.
  unfold updateAllowedClaims, overlayClaims, GetOk.
  destruct (d !! keyAllowedClaims) as [[| | |l| |]|]; try discriminate.
  - destruct (reservedAmong l) eqn:Hl; [discriminate|].
    intros _. split; [reflexivity|]. intros ? [= <-]. exact Hl.
  - intros _. split; [reflexivity|discriminate].
Qed.

(** The blocks pass or fail on the update alone; when they pass, they turn
    any configuration into its overlay. *)
Lemma applyFields_pass (d : gmap string Value) (c c' : Config) :
  applyFields d c = Return c' ->
  (forall c2, applyFields d c2 = Return (overlay d c2)) /\ update_accepted d.
Proof.
  intros Hrun.
  apply applyFields_Return in Hrun
    as (c1 & c2 & c3 & c4 & c5 & c6 & c7 & c8 & c9 & c10
        & E1 & E2 & E3 & E4 & E5 & E6 & E7 & E8 & E9 & E10 & E11).
  apply updateSignatureAlgorithm_pass in E1 as [P1 A1].
  apply updateRSAKeyBits_pass in E2 as [P2 A2].
  pose proof (updateRotationPeriod_pass _ _ _ E3) as P3.
  pose proof (updateTokenTTL_pass _ _ _ E4) as P4.
  pose proof (updateBool_pass _ _ _ _ _ E5) as P5.
  pose proof (updateBool_pass _ _ _ _ _ E6) as P6.
  pose proof (updateBool_pass _ _ _ _ _ E7) as P7.
  apply updatePattern_pass in E8 as [P8 A8]; [|reflexivity].
  apply updatePattern_pass in E9 as [P9 A9]; [|reflexivity].
  pose proof (updateMaxAudiences_pass _ _ _ E10) as P10.
  apply updateAllowedClaims_pass in E11 as [P11 A11].
  split; [|repeat split; assumption].
  intros c0. unfold applyFields, overlay.
  rewrite P1; cbn [obind]. rewrite P2; cbn [obind]. rewrite P3; cbn [obind].
  rewrite P4; cbn [obind]. rewrite P5; cbn [obind]. rewrite P6; cbn [obind].
  rewrite P7; cbn [obind]. rewrite P8; cbn [obind]. rewrite P9; cbn [obind].
  rewrite P10; cbn [obind]. apply P11.
Qed.

Lemma applyFields_overlay (d : gmap string Value) (c c' : Config) :
  applyFields d c = Return c' -> c' = overlay d c.
Proof.
  intros Hrun. pose proof (applyFields_pass d c c' Hrun) as [Hall _].
  rewrite Hall in Hrun. injection Hrun as <-. reflexivity.
Qed.

End Overlay.

Section OverlayFields.

Context `{Env}.

(** A block leaves alone the fields its setter leaves alone. *)
Lemma overlayString_other {A : Type} (f : Config -> A) (key : string)
    (set : string -> Config -> Config) (d : gmap string Value) (c : Config) :
  (forall s c0, f (set s c0) = f c0) -> f (overlayString key set d c) = f c.
Proof. intros Hf. unfold overlayString. repeat case_match; auto. Qed.

Lemma overlayInt_other {A : Type} (f : Config -> A) (key : string)
    (set : Z -> Config -> Config) (d : gmap string Value) (c : Config) :
  (forall n c0, f (set n c0) = f c0) -> f (overlayInt key set d c) = f c.
Proof. intros Hf. unfold overlayInt. repeat case_match; auto. Qed.

Lemma overlayBool_other {A : Type} (f : Config -> A) (key : string)
    (set : bool -> Config -> Config) (d : gmap string Value) (c : Config) :
  (forall v c0, f (set v c0) = f c0) -> f (overlayBool key set d c) = f c.
Proof. intros Hf. unfold overlayBool. repeat case_match; auto. Qed.

Lemma overlayDuration_other {A : Type} (f : Config -> A) (key : string)
    (set : Duration -> Config -> Config) (d : gmap string Value) (c : Config) :
  (forall x c0, f (set x c0) = f c0) -> f (overlayDuration key set d c) = f c.
Proof. intros Hf. unfold overlayDuration. repeat case_match; auto. Qed.

Lemma overlayClaims_other {A : Type} (f : Config -> A)
    (d : gmap string Value) (c : Config) :
  (forall l c0, f (withAllowedClaims l c0) = f c0) -> f (overlayClaims d c) = f c.
Proof. intros Hf. unfold overlayClaims. repeat case_match; auto. Qed.

Ltac other_blocks :=
  repeat first
    [ rewrite overlayClaims_other by reflexivity
    | rewrite overlayInt_other by reflexivity
    | rewrite overlayString_other by reflexivity
    | rewrite overlayBool_other by reflexivity
    | rewrite overlayDuration_other by reflexivity ].

Lemma overlay_SignatureAlgorithm (d : gmap string Value) (c : Config) :
  SignatureAlgorithm (overlay d c)
  = match d !! keySignatureAlgorithm with
    | Some (VString s) => s
    | _ => SignatureAlgorithm c
    end.
Proof.
  unfold overlay. other_blocks. unfold overlayString.
  repeat case_match; reflexivity.
Qed.

Lemma overlay_RSAKeyBits (d : gmap string Value) (c : Config) :
  RSAKeyBits (overlay d c)
  = match d !! keyRSAKeyBits with Some (VInt n) => n | _ => RSAKeyBits c end.
Proof.
  unfold overlay. other_blocks. unfold overlayInt at 1.
  repeat case_match; cbn; other_blocks; reflexivity.
Qed.

Lemma overlay_KeyRotationPeriod (d : gmap string Value) (c : Config) :
  KeyRotationPeriod (overlay d c)
  = match d !! keyRotationDuration with
    | Some (VString s) =>
        match time_ParseDuration s with
        | inl duration => duration
        | inr _ => KeyRotationPeriod c
        end
    | _ => KeyRotationPeriod c
    end.
Proof.
  unfold overlay. other_blocks. unfold overlayDuration at 1.
  repeat case_match; cbn; other_blocks; reflexivity.
Qed.

Lemma overlay_TokenTTL (d : gmap string Value) (c : Config) :
  TokenTTL (overlay d c)
  = match d !! keyTokenTTL with
    | Some (VString s) =>
        match time_ParseDuration s with
        | inl duration => duration
        | inr _ => TokenTTL c
        end
    | _ => TokenTTL c
    end.
Proof.
  unfold overlay. other_blocks. unfold overlayDuration at 1.
  repeat case_match; cbn; other_blocks; reflexivity.
Qed.

Lemma overlay_SetIAT (d : gmap string Value) (c : Config) :
  SetIAT (overlay d c)
  = match d !! keySetIAT with Some (VBool v) => v | _ => SetIAT c end.
Proof.
  unfold overlay. other_blocks. unfold overlayBool at 1.
  repeat case_match; cbn; other_blocks; reflexivity.
Qed.

Lemma overlay_SetJTI (d : gmap string Value) (c : Config) :
  SetJTI (overlay d c)
  = match d !! keySetJTI with Some (VBool v) => v | _ => SetJTI c end.
Proof.
  unfold overlay. other_blocks. unfold overlayBool at 1.
  repeat case_match; cbn; other_blocks; reflexivity.
Qed.

Lemma overlay_SetNBF (d : gmap string Value) (c : Config) :
  SetNBF (overlay d c)
  = match d !! keySetNBF with Some (VBool v) => v | _ => SetNBF c end.
Proof.
  unfold overlay. other_blocks. unfold overlayBool at 1.
  repeat case_match; cbn; other_blocks; reflexivity.
Qed.

Lemma overlay_Issuer (d : gmap string Value) (c : Config) :
  Issuer (overlay d c) = Issuer c.
Proof. unfold overlay. other_blocks. reflexivity. Qed.

Lemma overlay_AudiencePattern (d : gmap string Value) (c : Config) :
  AudiencePattern (overlay d c)
  = match d !! keyAudiencePattern with
    | Some (VString s) => s
    | _ => AudiencePattern c
    end.
Proof.
  unfold overlay. other_blocks. unfold overlayString at 1.
  repeat case_match; cbn; other_blocks; reflexivity.
Qed.

Lemma overlay_SubjectPattern (d : gmap string Value) (c : Config) :
  SubjectPattern (overlay d c)
  = match d !! keySubjectPattern with
    | Some (VString s) => s
    | _ => SubjectPattern c
    end.
Proof.
  unfold overlay. other_blocks. unfold overlayString at 1.
  repeat case_match; cbn; other_blocks; reflexivity.
Qed.

Lemma overlay_MaxAudiences (d : gmap string Value) (c : Config) :
  MaxAudiences (overlay d c)
  = match d !! keyMaxAllowedAudiences with
    | Some (VInt n) => n
    | _ => MaxAudiences c
    end.
Proof.
  unfold overlay. other_blocks. unfold overlayInt at 1.
  repeat case_match; cbn; other_blocks; reflexivity.
Qed.

Lemma overlay_AllowedClaims (d : gmap string Value) (c : Config) :
  AllowedClaims (overlay d c)
  = match d !! keyAllowedClaims with
    | Some (VStringSlice l) => l
    | _ => AllowedClaims c
    end.
Proof.
  unfold overlay, overlayClaims.
  repeat case_match; cbn; other_blocks; reflexivity.
Qed.

End OverlayFields.

(** ** Successful writes *)

Section WriteSuccess.

Context `{Env}.

(** What a successful write did. *)
Lemma pathConfigWrite_Return (b : backend) (d : gmap string Value)
    (stg stg' : Storage) (resp : Response) :
  pathConfigWrite b d stg = (Return resp, stg') ->
  getFailure stg = None
  /\ putFailure stg = None
  /\ applyFields d (default DefaultConfig (entry stg))
     = Return (overlay d (default DefaultConfig (entry stg)))
  /\ TokenTTL (overlay d (default DefaultConfig (entry stg))) <= MaxLeaseTTL b
  /\ stg' = mkStorage (Some (overlay d (default DefaultConfig (entry stg)))) None None
  /\ Return resp = configResponse (overlay d (default DefaultConfig (entry stg))).
Proof.
  rewrite pathConfigWrite_unfold.
  destruct (getFailure stg) eqn:Hget; [discriminate|].
  destruct (applyFields d _) as [candidate| |] eqn:Hrun; [|discriminate..].
  pose proof (applyFields_overlay _ _ _ Hrun) as ->.
  destruct (TokenTTL _ >? MaxLeaseTTL b) eqn:Httl; [discriminate|].
  destruct (putFailure stg) eqn:Hput; [discriminate|].
  intros [= Hresp <-].
  repeat split; try reflexivity.
  - rewrite Z.gtb_ltb in Httl. apply Z.ltb_ge in Httl. exact Httl.
  - unfold configResponse. rewrite <- Hresp. reflexivity.
Qed.

Lemma Config_ext (c1 c2 : Config) :
  SignatureAlgorithm c1 = SignatureAlgorithm c2 ->
  RSAKeyBits c1 = RSAKeyBits c2 ->
  KeyRotationPeriod c1 = KeyRotationPeriod c2 ->
  TokenTTL c1 = TokenTTL c2 ->
  SetIAT c1 = SetIAT c2 ->
  SetJTI c1 = SetJTI c2 ->
  SetNBF c1 = SetNBF c2 ->
  Issuer c1 = Issuer c2 ->
  AudiencePattern c1 = AudiencePattern c2 ->
  SubjectPattern c1 = SubjectPattern c2 ->
  MaxAudiences c1 = MaxAudiences c2 ->
  AllowedClaims c1 = AllowedClaims c2 ->
  c1 = c2.
Proof. destruct c1, c2; cbn; intros; subst; reflexivity. Qed.

Lemma overlay_idempotent (d : gmap string Value) (c : Config) :
  overlay d (overlay d c) = overlay d c.
Proof.
  apply Config_ext.
  - rewrite !overlay_SignatureAlgorithm. repeat case_match; congruence.
  - rewrite !overlay_RSAKeyBits. repeat case_match; congruence.
  - rewrite !overlay_KeyRotationPeriod. repeat case_match; congruence.
  - rewrite !overlay_TokenTTL. repeat case_match; congruence.
  - rewrite !overlay_SetIAT. repeat case_match; congruence.
  - rewrite !overlay_SetJTI. repeat case_match; congruence.
  - rewrite !overlay_SetNBF. repeat case_match; congruence.
  - rewrite !overlay_Issuer. reflexivity.
  - rewrite !overlay_AudiencePattern. repeat case_match; congruence.
  - rewrite !overlay_SubjectPattern. repeat case_match; congruence.
  - rewrite !overlay_MaxAudiences. repeat case_match; congruence.
  - rewrite !overlay_AllowedClaims. repeat case_match; congruence.
Qed.

Lemma reservedAmong_None_In (claims : list string) (claim : string) :
  reservedAmong claims = None ->
  In claim claims ->
  stringInSlice claim ReservedClaims = false.
Proof.
  intros Hnone Hin.
  destruct (stringInSlice claim ReservedClaims) eqn:Hres; [|reflexivity].
  exfalso. exact (reservedAmong_finds claims claim Hin Hres Hnone).
Qed.

End WriteSuccess.

(** X3. Fields that an update does not mention keep their values: after a
    successful write, each field of the stored configuration whose key is
    absent from the update equals that field of the configuration the write
    started from (the stored one, or the defaults); [Issuer] is kept
    whatever the update holds. *)
Theorem pathConfigWrite_keeps_absent_fields `{Env} (b : backend)
    (d : gmap string Value) (stg : Storage) :
  succeeded (fst (pathConfigWrite b d stg)) = true ->
  exists stored : Config,
    entry (snd (pathConfigWrite b d stg)) = Some stored
    /\ (d !! keySignatureAlgorithm = None ->
        SignatureAlgorithm stored
        = SignatureAlgorithm (default DefaultConfig (entry stg)))
    /\ (d !! keyRSAKeyBits = None ->
        RSAKeyBits stored = RSAKeyBits (default DefaultConfig (entry stg)))
    /\ (d !! keyRotationDuration = None ->
        KeyRotationPeriod stored
        = KeyRotationPeriod (default DefaultConfig (entry stg)))
    /\ (d !! keyTokenTTL = None ->
        TokenTTL stored = TokenTTL (default DefaultConfig (entry stg)))
    /\ (d !! keySetIAT = None ->
        SetIAT stored = SetIAT (default DefaultConfig (entry stg)))
    /\ (d !! keySetJTI = None ->
        SetJTI stored = SetJTI (default DefaultConfig (entry stg)))
    /\ (d !! keySetNBF = None ->
        SetNBF stored = SetNBF (default DefaultConfig (entry stg)))
    /\ (d !! keyAudiencePattern = None ->
        AudiencePattern stored
        = AudiencePattern (default DefaultConfig (entry stg)))
    /\ (d !! keySubjectPattern = None ->
        SubjectPattern stored
        = SubjectPattern (default DefaultConfig (entry stg)))
    /\ (d !! keyMaxAllowedAudiences = None ->
        MaxAudiences stored = MaxAudiences (default DefaultConfig (entry stg)))
    /\ (d !! keyAllowedClaims = None ->
        AllowedClaims stored = AllowedClaims (default DefaultConfig (entry stg)))
    /\ Issuer stored = Issuer (default DefaultConfig (entry stg)).
Proof.
  intros Hok.
  destruct (pathConfigWrite b d stg) as [[resp| |] stg'] eqn:Hwrite;
    try discriminate Hok.
  cbn [fst snd].
  apply pathConfigWrite_Return in Hwrite as (_ & _ & _ & _ & -> & _).
  eexists. split; [reflexivity|].
  repeat split.
  - intros Habsent. rewrite overlay_SignatureAlgorithm, Habsent. reflexivity.
  - intros Habsent. rewrite overlay_RSAKeyBits, Habsent. reflexivity.
  - intros Habsent. rewrite overlay_KeyRotationPeriod, Habsent. reflexivity.
  - intros Habsent. rewrite overlay_TokenTTL, Habsent. reflexivity.
  - intros Habsent. rewrite overlay_SetIAT, Habsent. reflexivity.
  - intros Habsent. rewrite overlay_SetJTI, Habsent. reflexivity.
  - intros Habsent. rewrite overlay_SetNBF, Habsent. reflexivity.
  - intros Habsent. rewrite overlay_AudiencePattern, Habsent. reflexivity.
  - intros Habsent. rewrite overlay_SubjectPattern, Habsent. reflexivity.
  - intros Habsent. rewrite overlay_MaxAudiences, Habsent. reflexivity.
  - intros Habsent. rewrite overlay_AllowedClaims, Habsent. reflexivity.
  - apply overlay_Issuer.
Qed.

(** X4. Fields that an update does mention are stored as sent: after a
    successful write, the stored configuration holds the algorithm, the key
    size, the three flags, the two patterns, the audience limit and the
    claim list of the update, and the two durations that the duration
    strings of the update parse to. *)
Theorem pathConfigWrite_stores_present_fields `{Env} (b : backend)
    (d : gmap string Value) (stg : Storage) :
  succeeded (fst (pathConfigWrite b d stg)) = true ->
  exists stored : Config,
    entry (snd (pathConfigWrite b d stg)) = Some stored
    /\ (forall s, d !! keySignatureAlgorithm = Some (VString s) ->
                  SignatureAlgorithm stored = s)
    /\ (forall n, d !! keyRSAKeyBits = Some (VInt n) -> RSAKeyBits stored = n)
    /\ (forall s, d !! keyRotationDuration = Some (VString s) ->
                  time_ParseDuration s = inl (KeyRotationPeriod stored))
    /\ (forall s, d !! keyTokenTTL = Some (VString s) ->
                  time_ParseDuration s = inl (TokenTTL stored))
    /\ (forall v, d !! keySetIAT = Some (VBool v) -> SetIAT stored = v)
    /\ (forall v, d !! keySetJTI = Some (VBool v) -> SetJTI stored = v)
    /\ (forall v, d !! keySetNBF = Some (VBool v) -> SetNBF stored = v)
    /\ (forall s, d !! keyAudiencePattern = Some (VString s) ->
                  AudiencePattern stored = s)
    /\ (forall s, d !! keySubjectPattern = Some (VString s) ->
                  SubjectPattern stored = s)
    /\ (forall n, d !! keyMaxAllowedAudiences = Some (VInt n) ->
                  MaxAudiences stored = n)
    /\ (forall l, d !! keyAllowedClaims = Some (VStringSlice l) ->
                  AllowedClaims stored = l).
Proof.
  intros Hok.
  destruct (pathConfigWrite b d stg) as [[resp| |] stg'] eqn:Hwrite;
    try discriminate Hok.
  cbn [fst snd].
  apply pathConfigWrite_Return in Hwrite as (_ & _ & Hrun & _ & -> & _).
  apply applyFields_Return in Hrun
    as (c1 & c2 & c3 & c4 & c5 & c6 & c7 & c8 & c9 & c10
        & E1 & E2 & E3 & E4 & E5 & E6 & E7 & E8 & E9 & E10 & E11).
  eexists. split; [reflexivity|].
  repeat split.
  - intros s Hd. rewrite overlay_SignatureAlgorithm, Hd. reflexivity.
  - intros n Hd. rewrite overlay_RSAKeyBits, Hd. reflexivity.
  - intros s Hd. rewrite overlay_KeyRotationPeriod, Hd.
    unfold updateRotationPeriod, GetOk in E3. rewrite Hd in E3.
    destruct (time_ParseDuration s); [reflexivity|discriminate E3].
  - intros s Hd. rewrite overlay_TokenTTL, Hd.
    unfold updateTokenTTL, GetOk in E4. rewrite Hd in E4.
    destruct (time_ParseDuration s); [reflexivity|discriminate E4].
  - intros v Hd. rewrite overlay_SetIAT, Hd. reflexivity.
  - intros v Hd. rewrite overlay_SetJTI, Hd. reflexivity.
  - intros v Hd. rewrite overlay_SetNBF, Hd. reflexivity.
  - intros s Hd. rewrite overlay_AudiencePattern, Hd. reflexivity.
  - intros s Hd. rewrite overlay_SubjectPattern, Hd. reflexivity.
  - intros n Hd. rewrite overlay_MaxAudiences, Hd. reflexivity.
  - intros l Hd. rewrite overlay_AllowedClaims, Hd. reflexivity.
Qed.

(** X5. After a successful write, a read returns the very response the
    write returned and leaves the storage as the write left it, and the
    existence check reports a stored record. *)
Theorem pathConfigWrite_then_read `{Env} (b : backend) (d : gmap string Value)
    (stg : Storage) :
  succeeded (fst (pathConfigWrite b d stg)) = true ->
  pathConfigRead (snd (pathConfigWrite b d stg)) = pathConfigWrite b d stg
  /\ pathConfigExistenceCheck (snd (pathConfigWrite b d stg))
     = (Return true, snd (pathConfigWrite b d stg)).
Proof.
  intros Hok.
  destruct (pathConfigWrite b d stg) as [[resp| |] stg'] eqn:Hwrite;
    try discriminate Hok.
  cbn [fst snd].
  apply pathConfigWrite_Return in Hwrite as (_ & _ & _ & _ & -> & Hresp).
  split.
  - rewrite Hresp. reflexivity.
  - reflexivity.
Qed.

(** X6. A write is idempotent: repeating a successful write on the storage
    it produced succeeds again, with the same response, and changes
    nothing. *)
Theorem pathConfigWrite_idempotent `{Env} (b : backend) (d : gmap string Value)
    (stg : Storage) :
  succeeded (fst (pathConfigWrite b d stg)) = true ->
  pathConfigWrite b d (snd (pathConfigWrite b d stg)) = pathConfigWrite b d stg.
Proof.
  intros Hok.
  destruct (pathConfigWrite b d stg) as [[resp| |] stg'] eqn:Hwrite;
    try discriminate Hok.
  cbn [fst snd].
  apply pathConfigWrite_Return in Hwrite as (_ & _ & Hrun & Httl & -> & Hresp).
  pose proof (applyFields_pass _ _ _ Hrun) as [Hall _].
  rewrite pathConfigWrite_unfold. cbn [getFailure putFailure entry].
  change (default DefaultConfig (Some ?c)) with c.
  rewrite Hall, overlay_idempotent.
  replace (TokenTTL _ >? MaxLeaseTTL b) with false
    by (symmetry; rewrite Z.gtb_ltb; apply Z.ltb_ge; exact Httl).
  rewrite Hresp. reflexivity.
Qed.

(** X7. A successful write keeps the stored configuration valid. The
    stored token lifetime is never above the lease ceiling, whatever the
    one the write started from. Each other check of the handler is kept on
    its own, with no assumption on the lifetime: if the configuration the
    write started from has an allowed algorithm, so has the stored one, and
    likewise for an allowed key size, for each of the two patterns
    compiling, and for a claim list without a reserved claim. *)
Theorem pathConfigWrite_keeps_valid `{Env} (b : backend) (d : gmap string Value)
    (stg : Storage) :
  succeeded (fst (pathConfigWrite b d stg)) = true ->
  exists stored : Config,
    entry (snd (pathConfigWrite b d stg)) = Some stored
    /\ TokenTTL stored <= MaxLeaseTTL b
    /\ (stringInSlice (SignatureAlgorithm (default DefaultConfig (entry stg)))
          AllowedSignatureAlgorithmNames = true ->
        stringInSlice (SignatureAlgorithm stored) AllowedSignatureAlgorithmNames = true)
    /\ (intInSlice (RSAKeyBits (default DefaultConfig (entry stg)))
          AllowedRSAKeyBits = true ->
        intInSlice (RSAKeyBits stored) AllowedRSAKeyBits = true)
    /\ (regexp_Compile (AudiencePattern (default DefaultConfig (entry stg))) = None ->
        regexp_Compile (AudiencePattern stored) = None)
    /\ (regexp_Compile (SubjectPattern (default DefaultConfig (entry stg))) = None ->
        regexp_Compile (SubjectPattern stored) = None)
    /\ ((forall claim, In claim (AllowedClaims (default DefaultConfig (entry stg))) ->
           stringInSlice claim ReservedClaims = false) ->
        forall claim, In claim (AllowedClaims stored) ->
          stringInSlice claim ReservedClaims = false).
Proof.
  intros Hok.
  destruct (pathConfigWrite b d stg) as [[resp| |] stg'] eqn:Hwrite;
    try discriminate Hok.
  cbn [fst snd].
  apply pathConfigWrite_Return in Hwrite as (_ & _ & Hrun & Httl & -> & _).
  pose proof (applyFields_pass _ _ _ Hrun) as [_ (Aalg & Abits & Aaud & Asub & Aclaims)].
  eexists. split; [reflexivity|]. split; [exact Httl|].
  split; [|split; [|split; [|split]]].
  - intros Valg. rewrite overlay_SignatureAlgorithm.
    destruct (d !! keySignatureAlgorithm) as [[s| | | | |]|] eqn:Hd; auto.
  - intros Vbits. rewrite overlay_RSAKeyBits.
    destruct (d !! keyRSAKeyBits) as [[|n| | | |]|] eqn:Hd; auto.
  - intros Vaud. rewrite overlay_AudiencePattern.
    destruct (d !! keyAudiencePattern) as [[s| | | | |]|] eqn:Hd; auto.
  - intros Vsub. rewrite overlay_SubjectPattern.
    destruct (d !! keySubjectPattern) as [[s| | | | |]|] eqn:Hd; auto.
  - intros Vclaims. rewrite overlay_AllowedClaims.
    destruct (d !! keyAllowedClaims) as [[| | |l| |]|] eqn:Hd; auto.
    intros claim Hin. exact (reservedAmong_None_In l claim (Aclaims l eq_refl) Hin).
Qed.

(** ** What the write never looks at, and what it never reports *)

Section WriteInputs.

Context `{Env}.

Lemma applyFields_insert_other (d : gmap string Value) (c : Config)
    (k : string) (x : Value) :
  ~ In k writtenKeys ->
  applyFields (<[k := x]> d) c = applyFields d c.
Proof.
  intros Hk.
  assert (Hne : forall key, In key writtenKeys -> <[k := x]> d !! key = d !! key).
  { intros key Hin. apply lookup_insert_ne. intros ->. exact (Hk Hin). }
  unfold applyFields, updateSignatureAlgorithm, updateRSAKeyBits,
    updateRotationPeriod, updateTokenTTL, updateBool, updatePattern,
    updateMaxAudiences, updateAllowedClaims, GetOk.
  rewrite !Hne by (cbn; tauto). reflexivity.
Qed.

Lemma obind_no_type_error {A B : Type} (m : Outcome A) (k : A -> Outcome B) :
  ~ reports_type_error m ->
  (forall a, ~ reports_type_error (k a)) ->
  ~ reports_type_error (obind m k).
Proof.
  intros Hm Hk. destruct m as [a|resp err|reason]; cbn [obind].
  - apply Hk.
  - exact Hm.
  - exact Hm.
Qed.

Lemma applyFields_no_type_error (d : gmap string Value) (c : Config) :
  conforms pathConfigFields d ->
  ~ reports_type_error (applyFields d c).
Proof.
  intros Hd.
  assert (Hty : forall k t, In (k, t) pathConfigFields ->
            forall v, d !! k = Some v -> hasType v t = true)
    by (intros k t Hin v; exact (Hd k t v Hin)).
  pose proof (Hty keySignatureAlgorithm TypeString ltac:(cbn; tauto)) as T1.
  pose proof (Hty keyRSAKeyBits TypeInt ltac:(cbn; tauto)) as T2.
  pose proof (Hty keyRotationDuration TypeString ltac:(cbn; tauto)) as T3.
  pose proof (Hty keyTokenTTL TypeString ltac:(cbn; tauto)) as T4.
  pose proof (Hty keySetIAT TypeBool ltac:(cbn; tauto)) as T5.
  pose proof (Hty keySetJTI TypeBool ltac:(cbn; tauto)) as T6.
  pose proof (Hty keySetNBF TypeBool ltac:(cbn; tauto)) as T7.
  pose proof (Hty keyAudiencePattern TypeString ltac:(cbn; tauto)) as T8.
  pose proof (Hty keySubjectPattern TypeString ltac:(cbn; tauto)) as T9.
  pose proof (Hty keyMaxAllowedAudiences TypeInt ltac:(cbn; tauto)) as T10.
  pose proof (Hty keyAllowedClaims TypeStringSlice ltac:(cbn; tauto)) as T11.
  clear Hty Hd.
  unfold applyFields.
  repeat (apply obind_no_type_error; [|intros ?]).
  - unfold updateSignatureAlgorithm, GetOk.
    destruct (d !! keySignatureAlgorithm) as [v|]; [|intros []].
    specialize (T1 v eq_refl). destruct v; try discriminate T1.
    destruct (negb _); cbn; [|tauto]. intros [E|E]; discriminate E.
  - unfold updateRSAKeyBits, GetOk.
    destruct (d !! keyRSAKeyBits) as [v|]; [|intros []].
    specialize (T2 v eq_refl). destruct v; try discriminate T2.
    destruct (negb _); cbn; [|tauto]. intros [E|E]; discriminate E.
  - unfold updateRotationPeriod, GetOk.
    destruct (d !! keyRotationDuration) as [v|]; [|intros []].
    specialize (T3 v eq_refl). destruct v; try discriminate T3.
    destruct (time_ParseDuration s); cbn; tauto.
  - unfold updateTokenTTL, GetOk.
    destruct (d !! keyTokenTTL) as [v|]; [|intros []].
    specialize (T4 v eq_refl). destruct v; try discriminate T4.
    destruct (time_ParseDuration s); cbn; tauto.
  - unfold updateBool, GetOk.
    destruct (d !! keySetIAT) as [v|]; [|intros []].
    specialize (T5 v eq_refl). destruct v; try discriminate T5. intros [].
  - unfold updateBool, GetOk.
    destruct (d !! keySetJTI) as [v|]; [|intros []].
    specialize (T6 v eq_refl). destruct v; try discriminate T6. intros [].
  - unfold updateBool, GetOk.
    destruct (d !! keySetNBF) as [v|]; [|intros []].
    specialize (T7 v eq_refl). destruct v; try discriminate T7. intros [].
  - unfold updatePattern, GetOk.
    destruct (d !! keyAudiencePattern) as [v|]; [|intros []].
    specialize (T8 v eq_refl). destruct v; try discriminate T8.
    destruct (regexp_Compile _); cbn; [|tauto]. intros [E|E]; discriminate E.
  - unfold updatePattern, GetOk.
    destruct (d !! keySubjectPattern) as [v|]; [|intros []].
    specialize (T9 v eq_refl). destruct v; try discriminate T9.
    destruct (regexp_Compile _); cbn; [|tauto]. intros [E|E]; discriminate E.
  - unfold updateMaxAudiences, GetOk.
    destruct (d !! keyMaxAllowedAudiences) as [v|]; [|intros []].
    specialize (T10 v eq_refl). destruct v; try discriminate T10. intros [].
  - unfold updateAllowedClaims, GetOk.
    destruct (d !! keyAllowedClaims) as [v|]; [|intros []].
    specialize (T11 v eq_refl). destruct v; try discriminate T11.
    destruct (reservedAmong l); cbn; [|tauto]. intros [E|E]; discriminate E.
Qed.

Lemma reservedAmong_first (pre post : list string) (claim : string) :
  Forall (fun c => stringInSlice c ReservedClaims = false) pre ->
  stringInSlice claim ReservedClaims = true ->
  reservedAmong (pre ++ claim :: post) = Some claim.
Proof.
  induction 1 as [|c rest Hc _ IH]; intros Hres; cbn [app reservedAmong].
  - rewrite Hres. reflexivity.
  - rewrite Hc. exact (IH Hres).
Qed.

End WriteInputs.

(** X8. The write reads eleven keys of the field data and nothing else:
    adding any other field to an update, or changing its value, changes
    neither the outcome nor the storage. The [issuer] field of the schema is
    such a field. *)
Theorem pathConfigWrite_ignores_other_fields `{Env} (b : backend)
    (d : gmap string Value) (stg : Storage) (k : string) (x : Value) :
  ~ In k writtenKeys ->
  pathConfigWrite b (<[k := x]> d) stg = pathConfigWrite b d stg
  /\ pathConfigWrite b (<[keyIssuer := x]> d) stg = pathConfigWrite b d stg.
Proof.
  intros Hk.
  assert (Hissuer : ~ In keyIssuer writtenKeys).
  { cbn. intros Hin. repeat (destruct Hin as [Hin|Hin]; [discriminate Hin|]).
    exact Hin. }
  split; rewrite !pathConfigWrite_unfold, applyFields_insert_other by assumption;
    reflexivity.
Qed.

(** X9. On field data that conforms to the schema of [pathConfig], as the
    framework hands it over, the write reports no type error: no type
    assertion panics and neither "sig_alg must be a string" nor
    "rsa_key_bits must be an integer" is returned. *)
Theorem pathConfigWrite_no_type_error `{Env} (b : backend)
    (d : gmap string Value) (stg : Storage) :
  conforms pathConfigFields d ->
  ~ reports_type_error (fst (pathConfigWrite b d stg)).
Proof.
  intros Hd. rewrite pathConfigWrite_unfold.
  destruct (getFailure stg); [intros []|].
  pose proof (applyFields_no_type_error d (default DefaultConfig (entry stg)) Hd)
    as Hfields.
  destruct (applyFields d _) as [config|resp err|reason]; cbn [fst].
  - destruct (TokenTTL config >? MaxLeaseTTL b); cbn [fst].
    + intros [E|E]; discriminate E.
    + destruct (putFailure stg); intros [].
  - exact Hfields.
  - exact Hfields.
Qed.

(** X10. An update without fields writes the configuration it read: when
    the storage works and the current token lifetime is within the ceiling,
    the write succeeds, stores the current configuration (the defaults, when
    none was stored) and returns its fields. *)
Theorem pathConfigWrite_empty_update `{Env} (b : backend) (stg : Storage) :
  getFailure stg = None ->
  putFailure stg = None ->
  TokenTTL (default DefaultConfig (entry stg)) <= MaxLeaseTTL b ->
  pathConfigWrite b ∅ stg
  = (configResponse (default DefaultConfig (entry stg)),
     mkStorage (Some (default DefaultConfig (entry stg))) None None).
Proof.
  intros Hget Hput Httl.
  rewrite pathConfigWrite_unfold, Hget, Hput.
  unfold applyFields, updateSignatureAlgorithm, updateRSAKeyBits,
    updateRotationPeriod, updateTokenTTL, updateBool, updatePattern,
    updateMaxAudiences, updateAllowedClaims, GetOk.
  rewrite !lookup_empty. cbn [obind].
  replace (TokenTTL _ >? MaxLeaseTTL b) with false
    by (symmetry; rewrite Z.gtb_ltb; apply Z.ltb_ge; exact Httl).
  reflexivity.
Qed.

(** X11. The response of a read or of a successful write has exactly the
    eleven keys the write reads: every one of them is returned, and no
    other key, [issuer] included, ever is. *)
Theorem configResponse_keys `{Env} (config : Config) (k : string) :
  is_Some (responseData (configResponse config) !! k) <-> In k writtenKeys.
Proof.
  unfold configResponse, responseData.
  rewrite <- elem_of_dom, dom_list_to_map_L, <- list_elem_of_In.
  cbn [fmap list_fmap fst list_to_set writtenKeys].
  rewrite !elem_of_union, !elem_of_singleton, elem_of_empty.
  unfold writtenKeys. rewrite !elem_of_cons, elem_of_nil.
  tauto.
Qed.

(** X12. The rejection of a claim list names its first reserved claim:
    when the claims before it are not reserved, the block of lines 204-214
    returns the error response with that claim as its argument and
    [logical.ErrInvalidRequest]. *)
Theorem updateAllowedClaims_first_reserved `{Env} (d : gmap string Value)
    (config : Config) (pre post : list string) (claim : string) :
  d !! keyAllowedClaims = Some (VStringSlice (pre ++ claim :: post)) ->
  Forall (fun c => stringInSlice c ReservedClaims = false) pre ->
  stringInSlice claim ReservedClaims = true ->
  updateAllowedClaims d config
  = Reject
      (Some (ErrorResponse
               "'%s' claim is reserved and not permitted in allowed_claims"
               [VString claim]))
      ErrInvalidRequest.
Proof.
  intros Hd Hpre Hres. unfold updateAllowedClaims, GetOk.
  rewrite Hd, (reservedAmong_first pre post claim Hpre Hres). reflexivity.
Qed.

(** X13. The algorithm is checked first: an update whose [sig_alg] is not
    allowed is rejected with the algorithm error whatever its other fields
    hold, valid or not, and the storage is unchanged. *)
Theorem pathConfigWrite_algorithm_first `{Env} (b : backend)
    (d : gmap string Value) (stg : Storage) (name : string) :
  getFailure stg = None ->
  d !! keySignatureAlgorithm = Some (VString name) ->
  stringInSlice name AllowedSignatureAlgorithmNames = false ->
  pathConfigWrite b d stg
  = (Reject
       (Some (ErrorResponse
                "unknown/unsupported signature algorithm, must be one of %s"
                [VStringSlice AllowedSignatureAlgorithmNames]))
       ErrInvalidRequest,
     stg).
Proof.
  intros Hget Hd Hname.
  rewrite pathConfigWrite_unfold, Hget.
  unfold applyFields, updateSignatureAlgorithm, GetOk.
  rewrite Hd, Hname. reflexivity.
Qed.

(** X14. Deleting resets the configuration: when the storage works, the
    delete succeeds with no response and removes the record; after it the
    existence check reports no record, a read returns the defaults, and a
    second delete succeeds and changes nothing. *)
Theorem pathConfigDelete_resets `{Env} (stg : Storage) :
  getFailure stg = None ->
  putFailure stg = None ->
  pathConfigDelete stg = (Return None, mkStorage None None None)
  /\ pathConfigExistenceCheck (snd (pathConfigDelete stg))
     = (Return false, snd (pathConfigDelete stg))
  /\ pathConfigRead (snd (pathConfigDelete stg))
     = (configResponse DefaultConfig, snd (pathConfigDelete stg))
  /\ pathConfigDelete (snd (pathConfigDelete stg)) = pathConfigDelete stg.
Proof.
  intros Hget Hput.
  assert (Hdel : pathConfigDelete stg = (Return None, mkStorage None None None)).
  { unfold pathConfigDelete, hbind, clearConfig, pure_step.
    rewrite Hput, Hget. reflexivity. }
  rewrite Hdel. repeat split; reflexivity.
Qed.

(** X19. When the storage works, a write succeeds exactly when the field
    blocks pass and the token lifetime of the configuration they produce is
    at most the lease ceiling; a lifetime equal to the ceiling is
    accepted. *)
Theorem pathConfigWrite_succeeds_iff `{Env} (b : backend) (d : gmap string Value)
    (stg : Storage) :
  getFailure stg = None ->
  putFailure stg = None ->
  succeeded (fst (pathConfigWrite b d stg)) = true
  <-> exists candidate : Config,
        applyFields d (default DefaultConfig (entry stg)) = Return candidate
        /\ TokenTTL candidate <= MaxLeaseTTL b.
Proof.
  intros Hget Hput. rewrite pathConfigWrite_unfold, Hget, Hput.
  destruct (applyFields d _) as [candidate|resp err|reason].
  - destruct (TokenTTL candidate >? MaxLeaseTTL b) eqn:Httl; cbn [fst succeeded].
    + rewrite Z.gtb_ltb in Httl. apply Z.ltb_lt in Httl.
      split; [discriminate|]. intros (c & [= <-] & Hle). lia.
    + rewrite Z.gtb_ltb in Httl. apply Z.ltb_ge in Httl.
      split; [|reflexivity]. intros _. exists candidate. split; [reflexivity|exact Httl].
  - cbn [fst succeeded]. split; [discriminate|]. intros (c & Hc & _). discriminate Hc.
  - cbn [fst succeeded]. split; [discriminate|]. intros (c & Hc & _). discriminate Hc.
Qed.

(** ** More on the key set *)

Section KeySetElements.

Context `{Env}.

Lemma published_Some (b : backend) (config : Config) (policy : Policy)
    (version : Z) (e : JSONWebKey) :
  published b config policy version = Some e <->
  exists key assigned,
    Keys policy !! Go.Itoa version = Some key
    /\ keyBranch policy key = Proceed assigned
    /\ e = {| Key := assigned;
              KeyID := createKeyId (id b) (Name policy) version;
              Algorithm := SignatureAlgorithm config;
              Use := "sig" |}.
Proof.
  unfold published, fillSlot. split.
  - destruct (Keys policy !! Go.Itoa version) as [key|]; [|discriminate].
    destruct (keyBranch policy key) as [|assigned] eqn:Hbranch; [discriminate|].
    intros [= <-]. exists key, assigned.
    split; [reflexivity|]. split; [exact Hbranch|].
    destruct assigned; reflexivity.
  - intros (key & assigned & Hkey & Hbranch & ->). rewrite Hkey, Hbranch.
    destruct assigned; reflexivity.
Qed.

Lemma omap_total_lookup {A B : Type} (f : A -> option B) (l : list A) :
  (forall x, x ∈ l -> is_Some (f x)) ->
  length (omap f l) = length l
  /\ forall (i : nat) (x : A), l !! i = Some x -> omap f l !! i = f x.
Proof.
  induction l as [|a l IH]; intros Hall.
  - split; [reflexivity|]. intros i x Hi. rewrite lookup_nil in Hi. discriminate.
  - destruct (Hall a (list_elem_of_here a l)) as [y Hy].
    destruct IH as [IHlen IHlook].
    { intros x Hx. apply Hall. apply list_elem_of_further. exact Hx. }
    cbn [omap list_omap]. rewrite Hy. split.
    + cbn [length]. f_equal. exact IHlen.
    + intros [|i] x Hi; cbn in Hi |- *.
      * injection Hi as <-. symmetry. exact Hy.
      * apply IHlook. exact Hi.
Qed.

Lemma keyBranch_withKey (policy : Policy) (version : Z) (key key' : KeyEntry) :
  keyBranch (withKey version key policy) key' = keyBranch policy key'.
Proof. reflexivity. Qed.

Lemma published_withKey_other (b : backend) (config : Config) (policy : Policy)
    (version version' : Z) (key : KeyEntry) :
  version' <> version ->
  published b config (withKey version key policy) version'
  = published b config policy version'.
Proof.
  intros Hne. unfold published, withKey, Go.Itoa. cbn [Keys Name].
  rewrite lookup_insert_ne; [reflexivity|].
  intros Heq. apply Hne. symmetry. exact (inj pretty _ _ Heq).
Qed.

Lemma published_withKey_failed (b : backend) (config : Config) (policy : Policy)
    (version : Z) (key : KeyEntry) :
  keyBranch policy key = Continue ->
  published b config (withKey version key policy) version = None.
Proof.
  intros Hfail. unfold published.
  change (Keys (withKey version key policy))
    with (<[Go.Itoa version := key]> (Keys policy)).
  rewrite lookup_insert_eq, keyBranch_withKey, Hfail. reflexivity.
Qed.

Lemma omap_published_withKey (b : backend) (config : Config) (policy : Policy)
    (version : Z) (key : KeyEntry) (versions : list Z) :
  version ∉ versions ->
  omap (published b config (withKey version key policy)) versions
  = omap (published b config policy) versions.
Proof.
  induction versions as [|v rest IH]; intros Hnot; [reflexivity|].
  cbn [omap list_omap].
  rewrite published_withKey_other by (intros ->; apply Hnot; left).
  rewrite IH by (intros Hin; apply Hnot; right; exact Hin).
  reflexivity.
Qed.

End KeySetElements.

Section KeySetShapes.

Context `{Env}.

Lemma window_split (policy : Policy) (version : Z) :
  MinDecryptionVersion policy <= version <= LatestVersion policy ->
  seqZ (MinDecryptionVersion policy)
       (LatestVersion policy - MinDecryptionVersion policy + 1)
  = seqZ (MinDecryptionVersion policy) (version - MinDecryptionVersion policy)
    ++ version :: seqZ (version + 1) (LatestVersion policy - version).
Proof.
  intros Hin.
  replace (LatestVersion policy - MinDecryptionVersion policy + 1)
    with ((version - MinDecryptionVersion policy)
          + (LatestVersion policy - version + 1)) by lia.
  rewrite seqZ_app by lia. f_equal.
  replace (MinDecryptionVersion policy + (version - MinDecryptionVersion policy))
    with version by lia.
  rewrite seqZ_cons by lia. f_equal. f_equal; lia.
Qed.

End KeySetShapes.

(** X15. A window without versions: when [LatestVersion] is one below
    [MinDecryptionVersion] the key set is empty, whatever the map holds;
    when it is further below, making the slice panics. *)
Theorem getPublicKeys_degenerate_window `{Env} (fuel : nat) (b : backend)
    (stg : Storage) (mount : string) (config : Config) (policy : Policy) :
  fst (getConfig stg) = Return config ->
  getPolicy b stg config mount = Return policy ->
  0 <= LatestVersion policy ->
  LatestVersion policy < MinDecryptionVersion policy ->
  MinDecryptionVersion policy <= Go.int_max ->
  (LatestVersion policy = MinDecryptionVersion policy - 1 ->
   getPublicKeys fuel b stg mount = Some (Return (mkJWKSet [])))
  /\ (LatestVersion policy < MinDecryptionVersion policy - 1 ->
      getPublicKeys fuel b stg mount = Some (Panic "makeslice: len out of range")).
Proof.
  intros Hconfig Hpolicy Hlatest Hless Hmin.
  assert (Hb : Go.int_max = 9223372036854775807) by reflexivity.
  assert (Hc : Go.int_min = -9223372036854775808) by reflexivity.
  assert (Hcount : keyCount policy
                   = LatestVersion policy - MinDecryptionVersion policy + 1).
  { unfold keyCount.
    rewrite (wrap_in_range (_ - _)) by (unfold Go.in_range; lia).
    apply wrap_in_range. unfold Go.in_range. lia. }
  unfold getPublicKeys. rewrite Hconfig, Hpolicy, Hcount. split; intros Hgap.
  - replace (LatestVersion policy - MinDecryptionVersion policy + 1 <? 0)
      with false by (symmetry; apply Z.ltb_ge; lia).
    replace (LatestVersion policy - MinDecryptionVersion policy + 1) with 0 by lia.
    cbn [Z.to_nat replicate].
    assert (Hexit : (MinDecryptionVersion policy <=? LatestVersion policy) = false)
      by (apply Z.leb_gt; lia).
    destruct fuel; cbn [forVersions]; rewrite Hexit; reflexivity.
  - replace (LatestVersion policy - MinDecryptionVersion policy + 1 <? 0)
      with true by (symmetry; apply Z.ltb_lt; lia).
    reflexivity.
Qed.

(** X16. A window whose versions are all in the map and all reach the
    assignments of lines 123-125 gives a key set without zero values: it has
    one element per version, and the element at index [i] is the one of
    version [MinDecryptionVersion + i], with that version's key id, the
    configured algorithm, [use = "sig"] and the key its branch assigned. *)
Theorem getPublicKeys_complete_window `{Env} (fuel : nat) (b : backend)
    (stg : Storage) (mount : string) (config : Config) (policy : Policy) :
  fst (getConfig stg) = Return config ->
  getPolicy b stg config mount = Return policy ->
  valid_window policy ->
  (Z.to_nat (keyCount policy) <= fuel)%nat ->
  (forall version,
      MinDecryptionVersion policy <= version <= LatestVersion policy ->
      exists key assigned,
        Keys policy !! Go.Itoa version = Some key
        /\ keyBranch policy key = Proceed assigned) ->
  exists keys : list JSONWebKey,
    getPublicKeys fuel b stg mount = Some (Return (mkJWKSet keys))
    /\ Z.of_nat (length keys)
       = LatestVersion policy - MinDecryptionVersion policy + 1
    /\ forall i : nat,
         Z.of_nat i <= LatestVersion policy - MinDecryptionVersion policy ->
         exists key assigned,
           Keys policy !! Go.Itoa (MinDecryptionVersion policy + Z.of_nat i)
           = Some key
           /\ keyBranch policy key = Proceed assigned
           /\ keys !! i
              = Some {| Key := assigned;
                        KeyID := createKeyId (id b) (Name policy)
                                   (MinDecryptionVersion policy + Z.of_nat i);
                        Algorithm := SignatureAlgorithm config;
                        Use := "sig" |}.
Proof.
  intros Hconfig Hpolicy Hwin Hfuel Hall.
  pose proof (getPublicKeys_run fuel b stg mount config policy
                Hconfig Hpolicy Hwin Hfuel) as Hrun.
  pose proof (keyCount_window policy Hwin) as Hcount.
  pose proof Hwin as (Hmin & Hle & Hmax).
  destruct (omap_total_lookup (published b config policy)
              (seqZ (MinDecryptionVersion policy)
                    (LatestVersion policy - MinDecryptionVersion policy + 1)))
    as [Hlen Hlook].
  { intros version Hin. apply elem_of_seqZ in Hin.
    destruct (Hall version ltac:(lia)) as (key & assigned & Hkey & Hbranch).
    eexists. apply published_Some. exists key, assigned.
    split; [exact Hkey|]. split; [exact Hbranch|reflexivity]. }
  rewrite length_seqZ in Hlen. fold (emitted b config policy) in Hlen, Hlook.
  eexists. split; [exact Hrun|].
  rewrite Hcount, Hlen, Nat.sub_diag. cbn [replicate]. rewrite app_nil_r.
  split; [rewrite Hlen; lia|].
  intros i Hi.
  destruct (Hall (MinDecryptionVersion policy + Z.of_nat i) ltac:(lia))
    as (key & assigned & Hkey & Hbranch).
  exists key, assigned. split; [exact Hkey|]. split; [exact Hbranch|].
  rewrite (Hlook i (MinDecryptionVersion policy + Z.of_nat i))
    by (apply lookup_seqZ_lt; lia).
  apply published_Some. exists key, assigned.
  split; [exact Hkey|]. split; [exact Hbranch|reflexivity].
Qed.

(** X17. Every element of the returned key set is either a zero value or
    the element of a version of the window that is in the map: it then
    carries that version's key id, the configured algorithm and
    [use = "sig"]. *)
Theorem getPublicKeys_elements `{Env} (fuel : nat) (b : backend)
    (stg : Storage) (mount : string) (config : Config) (policy : Policy) :
  fst (getConfig stg) = Return config ->
  getPolicy b stg config mount = Return policy ->
  valid_window policy ->
  (Z.to_nat (keyCount policy) <= fuel)%nat ->
  exists keys : list JSONWebKey,
    getPublicKeys fuel b stg mount = Some (Return (mkJWKSet keys))
    /\ forall e : JSONWebKey,
         In e keys ->
         e = zeroJWK
         \/ exists version key assigned,
              MinDecryptionVersion policy <= version <= LatestVersion policy
              /\ Keys policy !! Go.Itoa version = Some key
              /\ keyBranch policy key = Proceed assigned
              /\ e = {| Key := assigned;
                        KeyID := createKeyId (id b) (Name policy) version;
                        Algorithm := SignatureAlgorithm config;
                        Use := "sig" |}.
Proof.
  intros Hconfig Hpolicy Hwin Hfuel.
  pose proof (getPublicKeys_run fuel b stg mount config policy
                Hconfig Hpolicy Hwin Hfuel) as Hrun.
  eexists. split; [exact Hrun|].
  intros e He. apply list_elem_of_In, elem_of_app in He as [He|He].
  - right. unfold emitted in He.
    apply list_elem_of_omap in He as (version & Hin & Hpub).
    apply elem_of_seqZ in Hin.
    apply published_Some in Hpub as (key & assigned & Hkey & Hbranch & ->).
    exists version, key, assigned. repeat split; try assumption; lia.
  - left. apply elem_of_replicate in He as [-> _]. reflexivity.
Qed.

(** X18. A key that fails to decode costs its own element only: when the
    entry of one version of the window is replaced by an entry whose branch
    ends in [continue], the written elements are those of the versions
    before it followed by those of the versions after it, each exactly as
    the policy without the replacement gives it. *)
Theorem getPublicKeys_failure_isolated `{Env} (fuel : nat) (b : backend)
    (stg : Storage) (mount : string) (config : Config) (policy : Policy)
    (version : Z) (bad : KeyEntry) :
  fst (getConfig stg) = Return config ->
  getPolicy b stg config mount = Return (withKey version bad policy) ->
  valid_window policy ->
  (Z.to_nat (keyCount policy) <= fuel)%nat ->
  MinDecryptionVersion policy <= version <= LatestVersion policy ->
  keyBranch policy bad = Continue ->
  exists zeros : nat,
    getPublicKeys fuel b stg mount
    = Some (Return (mkJWKSet
        (omap (published b config policy)
              (seqZ (MinDecryptionVersion policy)
                    (version - MinDecryptionVersion policy))
         ++ omap (published b config policy)
              (seqZ (version + 1) (LatestVersion policy - version))
         ++ replicate zeros zeroJWK)))
    /\ emitted b config policy
       = omap (published b config policy)
              (seqZ (MinDecryptionVersion policy)
                    (version - MinDecryptionVersion policy))
         ++ option_list (published b config policy version)
         ++ omap (published b config policy)
              (seqZ (version + 1) (LatestVersion policy - version)).
Proof.
  intros Hconfig Hpolicy Hwin Hfuel Hin Hbad.
  pose proof (getPublicKeys_run fuel b stg mount config
                (withKey version bad policy) Hconfig Hpolicy Hwin Hfuel) as Hrun.
  assert (Hemitted : forall p,
             MinDecryptionVersion p = MinDecryptionVersion policy ->
             LatestVersion p = LatestVersion policy ->
             emitted b config p
             = omap (published b config p)
                 (seqZ (MinDecryptionVersion policy)
                       (version - MinDecryptionVersion policy))
               ++ option_list (published b config p version)
               ++ omap (published b config p)
                    (seqZ (version + 1) (LatestVersion policy - version))).
  { intros p Hpmin Hpmax. unfold emitted. rewrite Hpmin, Hpmax.
    rewrite (window_split policy version Hin), omap_app.
    cbn [omap list_omap].
    destruct (published b config p version); reflexivity. }
  eexists. split; [|exact (Hemitted policy eq_refl eq_refl)].
  rewrite Hrun. rewrite (Hemitted (withKey version bad policy) eq_refl eq_refl).
  rewrite (published_withKey_failed b config policy version bad Hbad).
  rewrite !omap_published_withKey
    by (intros Hmem; apply elem_of_seqZ in Hmem; lia).
  cbn [option_list app]. rewrite <- app_assoc. reflexivity.
Qed.

(** ** The lease ceiling and a candidate that is never built *)

(** C6. When the current configuration with all the fields of an update
    overlaid has a token lifetime above the lease ceiling of the host, the
    write does not succeed and the storage is unchanged. The error is the
    one that names [jwt_ttl] when every field block passes, so that the
    candidate is built and line 216 is reached; when a field block rejects
    the update, the error is that block's. *)
Theorem pathConfigWrite_ttl_ceiling `{Env} (b : backend) (d : gmap string Value)
    (stg : Storage) (current : Config) :
  fst (getConfig stg) = Return current ->
  TokenTTL (overlay d current) > MaxLeaseTTL b ->
  succeeded (fst (pathConfigWrite b d stg)) = false
  /\ snd (pathConfigWrite b d stg) = stg
  /\ (forall candidate : Config,
        applyFields d current = Return candidate ->
        pathConfigWrite b d stg
        = (Reject (Some (ErrorResponse "'%s' is greater that the max lease ttl"
                           [VString keyTokenTTL]))
                  ErrInvalidRequest,
           stg))
  /\ (forall (resp : option Response) (err : error),
        applyFields d current = Reject resp err ->
        pathConfigWrite b d stg = (Reject resp err, stg)).
Proof.
  intros Hget Hover.
  assert (Hpass : forall candidate : Config,
            applyFields d current = Return candidate ->
            pathConfigWrite b d stg = (ttlRejection, stg)).
  { intros candidate Hfields.
    apply (pathConfigWrite_over_ceiling b d stg current candidate Hget Hfields).
    rewrite (applyFields_overlay _ _ _ Hfields). exact Hover. }
  assert (Hfail : succeeded (fst (pathConfigWrite b d stg)) = false).
  { destruct (applyFields d current) as [candidate|resp err|reason] eqn:Hfields.
    - rewrite (Hpass candidate eq_refl). reflexivity.
    - apply (pathConfigWrite_fields_fail b d stg current Hget).
      rewrite Hfields. reflexivity.
    - apply (pathConfigWrite_fields_fail b d stg current Hget).
      rewrite Hfields. reflexivity. }
  split; [exact Hfail|]. split; [|split].
  - exact (pathConfigWrite_failure_keeps_storage b d stg Hfail).
  - exact Hpass.
  - intros resp err Hfields.
    apply getConfig_Return in Hget as [Hget <-].
    rewrite pathConfigWrite_unfold, Hget, Hfields. reflexivity.
Qed.

(** Witness of C6: [jwt_ttl = 1000h] alone, against a ceiling of 768
    hours. *)
Lemma pathConfigWrite_ttl_ceiling_witness :
  succeeded (fst (@pathConfigWrite Example.env (Example.backendOf Example.prunedPolicy)
                    Example.thousandHoursUpdate Example.emptyStorage)) = false
  /\ snd (@pathConfigWrite Example.env (Example.backendOf Example.prunedPolicy)
            Example.thousandHoursUpdate Example.emptyStorage) = Example.emptyStorage
  /\ (forall candidate : Config,
        @applyFields Example.env Example.thousandHoursUpdate Example.defaults
        = Return candidate ->
        @pathConfigWrite Example.env (Example.backendOf Example.prunedPolicy)
          Example.thousandHoursUpdate Example.emptyStorage
        = (Reject (Some (ErrorResponse "'%s' is greater that the max lease ttl"
                           [VString keyTokenTTL]))
                  ErrInvalidRequest,
           Example.emptyStorage))
  /\ (forall (resp : option Response) (err : error),
        @applyFields Example.env Example.thousandHoursUpdate Example.defaults
        = Reject resp err ->
        @pathConfigWrite Example.env (Example.backendOf Example.prunedPolicy)
          Example.thousandHoursUpdate Example.emptyStorage
        = (Reject resp err, Example.emptyStorage)).
Proof.
  apply (@pathConfigWrite_ttl_ceiling Example.env
           (Example.backendOf Example.prunedPolicy) Example.thousandHoursUpdate
           Example.emptyStorage Example.defaults).
  - reflexivity.
  - vm_compute. reflexivity.
Defined.

(** C6, as stated, fails on [Example.overCeilingUpdate]: with [jwt_ttl =
    1000h] and [allowed_claims = [exp]] overlaid on the defaults, the token
    lifetime is above the ceiling of 768 hours, but the block of
    [allowed_claims] returns at line 209 and the comparison of line 216 is
    never made: the error names the claim [exp], not [jwt_ttl]. *)
Lemma ceiling_error_names_another_field :
  TokenTTL (@overlay Example.env Example.overCeilingUpdate Example.defaults)
  > MaxLeaseTTL (Example.backendOf Example.prunedPolicy)
  /\ @pathConfigWrite Example.env (Example.backendOf Example.prunedPolicy)
       Example.overCeilingUpdate Example.emptyStorage
     = (Reject (Some (ErrorResponse
                        "'%s' claim is reserved and not permitted in allowed_claims"
                        [VString "exp"]))
               ErrInvalidRequest,
        Example.emptyStorage)
  /\ ~ @ceiling_enforced Example.env (Example.backendOf Example.prunedPolicy)
         Example.overCeilingUpdate Example.emptyStorage.
Proof.
  split; [vm_compute; reflexivity|]. split; [vm_compute; reflexivity|].
  intros Hclaim.
  destruct (Hclaim Example.defaults eq_refl) as [Hnamed _].
  - vm_compute. reflexivity.
  - vm_compute in Hnamed. destruct Hnamed as [Hformat|[Harg|[]]]; discriminate.
Qed.

(** ** The versions behind the written elements *)

Section KeySetVersions.

Context `{Env}.







End KeySetVersions.


Section KeySetRuns.

#[local] Existing Instance Example.env.


End KeySetRuns.


(** ** Runs of the further properties

    Each property above that has a premise, applied to a request of
    [Example], in the environment [Example.env]. *)

Section Runs.

#[local] Existing Instance Example.env.

(** A run of [pathConfigWrite_keeps_absent_fields]: a write of [set_iat] alone on an empty storage. *)
Lemma pathConfigWrite_keeps_absent_fields_witness :
  exists stored : Config,
    entry (snd (pathConfigWrite (Example.backendOf Example.prunedPolicy) Example.flagUpdate Example.emptyStorage)) = Some stored
    /\ (Example.flagUpdate !! keySignatureAlgorithm = None ->
        SignatureAlgorithm stored
        = SignatureAlgorithm (default DefaultConfig (entry Example.emptyStorage)))
    /\ (Example.flagUpdate !! keyRSAKeyBits = None ->
        RSAKeyBits stored = RSAKeyBits (default DefaultConfig (entry Example.emptyStorage)))
    /\ (Example.flagUpdate !! keyRotationDuration = None ->
        KeyRotationPeriod stored
        = KeyRotationPeriod (default DefaultConfig (entry Example.emptyStorage)))
    /\ (Example.flagUpdate !! keyTokenTTL = None ->
        TokenTTL stored = TokenTTL (default DefaultConfig (entry Example.emptyStorage)))
    /\ (Example.flagUpdate !! keySetIAT = None ->
        SetIAT stored = SetIAT (default DefaultConfig (entry Example.emptyStorage)))
    /\ (Example.flagUpdate !! keySetJTI = None ->
        SetJTI stored = SetJTI (default DefaultConfig (entry Example.emptyStorage)))
    /\ (Example.flagUpdate !! keySetNBF = None ->
        SetNBF stored = SetNBF (default DefaultConfig (entry Example.emptyStorage)))
    /\ (Example.flagUpdate !! keyAudiencePattern = None ->
        AudiencePattern stored
        = AudiencePattern (default DefaultConfig (entry Example.emptyStorage)))
    /\ (Example.flagUpdate !! keySubjectPattern = None ->
        SubjectPattern stored
        = SubjectPattern (default DefaultConfig (entry Example.emptyStorage)))
    /\ (Example.flagUpdate !! keyMaxAllowedAudiences = None ->
        MaxAudiences stored = MaxAudiences (default DefaultConfig (entry Example.emptyStorage)))
    /\ (Example.flagUpdate !! keyAllowedClaims = None ->
        AllowedClaims stored = AllowedClaims (default DefaultConfig (entry Example.emptyStorage)))
    /\ Issuer stored = Issuer (default DefaultConfig (entry Example.emptyStorage)).
Proof.
  apply (@pathConfigWrite_keeps_absent_fields Example.env
           (Example.backendOf Example.prunedPolicy) Example.flagUpdate Example.emptyStorage).
  - vm_compute; reflexivity.
Defined.

(** A run of [pathConfigWrite_stores_present_fields]: the request [Example.fullUpdate] on an empty storage. *)
Lemma pathConfigWrite_stores_present_fields_witness :
  exists stored : Config,
    entry (snd (pathConfigWrite (Example.backendOf Example.prunedPolicy) (fieldData Example.fullUpdate) Example.emptyStorage)) = Some stored
    /\ (forall s, (fieldData Example.fullUpdate) !! keySignatureAlgorithm = Some (VString s) ->
                  SignatureAlgorithm stored = s)
    /\ (forall n, (fieldData Example.fullUpdate) !! keyRSAKeyBits = Some (VInt n) -> RSAKeyBits stored = n)
    /\ (forall s, (fieldData Example.fullUpdate) !! keyRotationDuration = Some (VString s) ->
                  time_ParseDuration s = inl (KeyRotationPeriod stored))
    /\ (forall s, (fieldData Example.fullUpdate) !! keyTokenTTL = Some (VString s) ->
                  time_ParseDuration s = inl (TokenTTL stored))
    /\ (forall v, (fieldData Example.fullUpdate) !! keySetIAT = Some (VBool v) -> SetIAT stored = v)
    /\ (forall v, (fieldData Example.fullUpdate) !! keySetJTI = Some (VBool v) -> SetJTI stored = v)
    /\ (forall v, (fieldData Example.fullUpdate) !! keySetNBF = Some (VBool v) -> SetNBF stored = v)
    /\ (forall s, (fieldData Example.fullUpdate) !! keyAudiencePattern = Some (VString s) ->
                  AudiencePattern stored = s)
    /\ (forall s, (fieldData Example.fullUpdate) !! keySubjectPattern = Some (VString s) ->
                  SubjectPattern stored = s)
    /\ (forall n, (fieldData Example.fullUpdate) !! keyMaxAllowedAudiences = Some (VInt n) ->
                  MaxAudiences stored = n)
    /\ (forall l, (fieldData Example.fullUpdate) !! keyAllowedClaims = Some (VStringSlice l) ->
                  AllowedClaims stored = l).
Proof.
  apply (@pathConfigWrite_stores_present_fields Example.env
           (Example.backendOf Example.prunedPolicy)
           (fieldData Example.fullUpdate) Example.emptyStorage).
  - vm_compute; reflexivity.
Defined.

(** A run of [pathConfigWrite_then_read]: the request [Example.fullUpdate] on an empty storage. *)
Lemma pathConfigWrite_then_read_witness :
  pathConfigRead (snd (pathConfigWrite (Example.backendOf Example.prunedPolicy) (fieldData Example.fullUpdate) Example.emptyStorage)) = pathConfigWrite (Example.backendOf Example.prunedPolicy) (fieldData Example.fullUpdate) Example.emptyStorage
  /\ pathConfigExistenceCheck (snd (pathConfigWrite (Example.backendOf Example.prunedPolicy) (fieldData Example.fullUpdate) Example.emptyStorage))
     = (Return true, snd (pathConfigWrite (Example.backendOf Example.prunedPolicy) (fieldData Example.fullUpdate) Example.emptyStorage)).
Proof.
  apply (@pathConfigWrite_then_read Example.env
           (Example.backendOf Example.prunedPolicy)
           (fieldData Example.fullUpdate) Example.emptyStorage).
  - vm_compute; reflexivity.
Defined.

(** A run of [pathConfigWrite_idempotent]: the request [Example.fullUpdate] on an empty storage. *)
Lemma pathConfigWrite_idempotent_witness :
  pathConfigWrite (Example.backendOf Example.prunedPolicy) (fieldData Example.fullUpdate) (snd (pathConfigWrite (Example.backendOf Example.prunedPolicy) (fieldData Example.fullUpdate) Example.emptyStorage)) = pathConfigWrite (Example.backendOf Example.prunedPolicy) (fieldData Example.fullUpdate) Example.emptyStorage.
Proof.
  apply (@pathConfigWrite_idempotent Example.env
           (Example.backendOf Example.prunedPolicy)
           (fieldData Example.fullUpdate) Example.emptyStorage).
  - vm_compute; reflexivity.
Defined.

(** A run of [pathConfigWrite_keeps_valid]: the stored lifetime is 1000 hours, above the ceiling, and the update brings it down to one hour. *)
Lemma pathConfigWrite_keeps_valid_witness :
  exists stored : Config,
    entry (snd (pathConfigWrite (Example.backendOf Example.prunedPolicy) Example.hourUpdate Example.longLivedStorage)) = Some stored
    /\ TokenTTL stored <= MaxLeaseTTL (Example.backendOf Example.prunedPolicy)
    /\ (stringInSlice (SignatureAlgorithm (default DefaultConfig (entry Example.longLivedStorage)))
          AllowedSignatureAlgorithmNames = true ->
        stringInSlice (SignatureAlgorithm stored) AllowedSignatureAlgorithmNames = true)
    /\ (intInSlice (RSAKeyBits (default DefaultConfig (entry Example.longLivedStorage)))
          AllowedRSAKeyBits = true ->
        intInSlice (RSAKeyBits stored) AllowedRSAKeyBits = true)
    /\ (regexp_Compile (AudiencePattern (default DefaultConfig (entry Example.longLivedStorage))) = None ->
        regexp_Compile (AudiencePattern stored) = None)
    /\ (regexp_Compile (SubjectPattern (default DefaultConfig (entry Example.longLivedStorage))) = None ->
        regexp_Compile (SubjectPattern stored) = None)
    /\ ((forall claim, In claim (AllowedClaims (default DefaultConfig (entry Example.longLivedStorage))) ->
           stringInSlice claim ReservedClaims = false) ->
        forall claim, In claim (AllowedClaims stored) ->
          stringInSlice claim ReservedClaims = false).
Proof.
  apply (@pathConfigWrite_keeps_valid Example.env
           (Example.backendOf Example.prunedPolicy)
           Example.hourUpdate Example.longLivedStorage).
  - vm_compute; reflexivity.
Defined.

(** A run of [pathConfigWrite_ignores_other_fields]: a field named [comment]. *)
Lemma pathConfigWrite_ignores_other_fields_witness :
  pathConfigWrite (Example.backendOf Example.prunedPolicy) (<["comment" := (VString "hello")]> Example.flagUpdate) Example.emptyStorage = pathConfigWrite (Example.backendOf Example.prunedPolicy) Example.flagUpdate Example.emptyStorage
  /\ pathConfigWrite (Example.backendOf Example.prunedPolicy) (<[keyIssuer := (VString "hello")]> Example.flagUpdate) Example.emptyStorage = pathConfigWrite (Example.backendOf Example.prunedPolicy) Example.flagUpdate Example.emptyStorage.
Proof.
  apply (@pathConfigWrite_ignores_other_fields Example.env
           (Example.backendOf Example.prunedPolicy) Example.flagUpdate Example.emptyStorage "comment" (VString "hello")).
  - cbn; intros Hin; repeat (destruct Hin as [Hin|Hin]; [discriminate Hin|]); exact Hin.
Defined.

(** A run of [pathConfigWrite_no_type_error]: the request [Example.fullUpdate], whose values have the types of the schema. *)
Lemma pathConfigWrite_no_type_error_witness :
  ~ reports_type_error (fst (pathConfigWrite (Example.backendOf Example.prunedPolicy) (fieldData Example.fullUpdate) Example.emptyStorage)).
Proof.
  apply (@pathConfigWrite_no_type_error Example.env
           (Example.backendOf Example.prunedPolicy)
           (fieldData Example.fullUpdate) Example.emptyStorage).
  - intros k t v Hin Hd; cbn in Hin;
    repeat (destruct Hin as [[= <- <-]|Hin];
            [vm_compute in Hd; injection Hd as <-; reflexivity|]);
    destruct Hin.
Defined.

(** A run of [pathConfigWrite_empty_update]: an empty storage, where the defaults are read. *)
Lemma pathConfigWrite_empty_update_witness :
  pathConfigWrite (Example.backendOf Example.prunedPolicy) ∅ Example.emptyStorage
  = (configResponse (default DefaultConfig (entry Example.emptyStorage)),
     mkStorage (Some (default DefaultConfig (entry Example.emptyStorage))) None None).
Proof.
  apply (@pathConfigWrite_empty_update Example.env
           (Example.backendOf Example.prunedPolicy) Example.emptyStorage).
  - reflexivity.
  - reflexivity.
  - vm_compute; discriminate.
Defined.

(** A run of [updateAllowedClaims_first_reserved]: the claim list [email, exp, iat], whose first reserved claim is [exp]. *)
Lemma updateAllowedClaims_first_reserved_witness :
  updateAllowedClaims Example.claimsUpdate Example.defaults
  = Reject
      (Some (ErrorResponse
               "'%s' claim is reserved and not permitted in allowed_claims"
               [VString "exp"]))
      ErrInvalidRequest.
Proof.
  apply (@updateAllowedClaims_first_reserved Example.env
           Example.claimsUpdate Example.defaults ["email"] ["iat"] "exp").
  - reflexivity.
  - repeat constructor.
  - reflexivity.
Defined.

(** A run of [pathConfigWrite_algorithm_first]: the algorithm [none] together with a lifetime that does not parse. *)
Lemma pathConfigWrite_algorithm_first_witness :
  pathConfigWrite (Example.backendOf Example.prunedPolicy) Example.badAlgorithmUpdate Example.emptyStorage
  = (Reject
       (Some (ErrorResponse
                "unknown/unsupported signature algorithm, must be one of %s"
                [VStringSlice AllowedSignatureAlgorithmNames]))
       ErrInvalidRequest,
     Example.emptyStorage).
Proof.
  apply (@pathConfigWrite_algorithm_first Example.env
           (Example.backendOf Example.prunedPolicy) Example.badAlgorithmUpdate Example.emptyStorage "none").
  - reflexivity.
  - reflexivity.
  - reflexivity.
Defined.

(** A run of [pathConfigDelete_resets]: a storage that holds a configuration. *)
Lemma pathConfigDelete_resets_witness :
  pathConfigDelete (mkStorage (Some Example.longLived) None None) = (Return None, mkStorage None None None)
  /\ pathConfigExistenceCheck (snd (pathConfigDelete (mkStorage (Some Example.longLived) None None)))
     = (Return false, snd (pathConfigDelete (mkStorage (Some Example.longLived) None None)))
  /\ pathConfigRead (snd (pathConfigDelete (mkStorage (Some Example.longLived) None None)))
     = (configResponse DefaultConfig, snd (pathConfigDelete (mkStorage (Some Example.longLived) None None)))
  /\ pathConfigDelete (snd (pathConfigDelete (mkStorage (Some Example.longLived) None None))) = pathConfigDelete (mkStorage (Some Example.longLived) None None).
Proof.
  apply (@pathConfigDelete_resets Example.env
           (mkStorage (Some Example.longLived) None None)).
  - reflexivity.
  - reflexivity.
Defined.

(** A run of [pathConfigWrite_succeeds_iff]: a lifetime of 768 hours against a ceiling of 768 hours. *)
Lemma pathConfigWrite_succeeds_iff_witness :
  succeeded (fst (pathConfigWrite (Example.backendOf Example.prunedPolicy) Example.ceilingUpdate Example.emptyStorage)) = true
  <-> exists candidate : Config,
        applyFields Example.ceilingUpdate (default DefaultConfig (entry Example.emptyStorage)) = Return candidate
        /\ TokenTTL candidate <= MaxLeaseTTL (Example.backendOf Example.prunedPolicy).
Proof.
  apply (@pathConfigWrite_succeeds_iff Example.env
           (Example.backendOf Example.prunedPolicy) Example.ceilingUpdate Example.emptyStorage).
  - reflexivity.
  - reflexivity.
Defined.

(** A run of [getPublicKeys_degenerate_window]: a window from 4 down to 1. *)
Lemma getPublicKeys_degenerate_window_witness :
  (LatestVersion Example.invertedPolicy = MinDecryptionVersion Example.invertedPolicy - 1 ->
   getPublicKeys 0%nat (Example.backendOf Example.invertedPolicy) Example.emptyStorage "jwt/" = Some (Return (mkJWKSet [])))
  /\ (LatestVersion Example.invertedPolicy < MinDecryptionVersion Example.invertedPolicy - 1 ->
      getPublicKeys 0%nat (Example.backendOf Example.invertedPolicy) Example.emptyStorage "jwt/" = Some (Panic "makeslice: len out of range")).
Proof.
  apply (@getPublicKeys_degenerate_window Example.env
           0%nat (Example.backendOf Example.invertedPolicy) Example.emptyStorage "jwt/" Example.defaults Example.invertedPolicy).
  - reflexivity.
  - reflexivity.
  - vm_compute; discriminate.
  - reflexivity.
  - vm_compute; discriminate.
Defined.

(** A run of [getPublicKeys_complete_window]: a window from 1 to 3 with its three versions. *)
Lemma getPublicKeys_complete_window_witness :
  exists keys : list JSONWebKey,
    getPublicKeys 3%nat (Example.backendOf Example.fullPolicy) Example.emptyStorage "jwt/" = Some (Return (mkJWKSet keys))
    /\ Z.of_nat (length keys)
       = LatestVersion Example.fullPolicy - MinDecryptionVersion Example.fullPolicy + 1
    /\ forall i : nat,
         Z.of_nat i <= LatestVersion Example.fullPolicy - MinDecryptionVersion Example.fullPolicy ->
         exists key assigned,
           Keys Example.fullPolicy !! Go.Itoa (MinDecryptionVersion Example.fullPolicy + Z.of_nat i)
           = Some key
           /\ keyBranch Example.fullPolicy key = Proceed assigned
           /\ keys !! i
              = Some {| Key := assigned;
                        KeyID := createKeyId (id (Example.backendOf Example.fullPolicy)) (Name Example.fullPolicy)
                                   (MinDecryptionVersion Example.fullPolicy + Z.of_nat i);
                        Algorithm := SignatureAlgorithm Example.defaults;
                        Use := "sig" |}.
Proof.
  apply (@getPublicKeys_complete_window Example.env
           3%nat (Example.backendOf Example.fullPolicy) Example.emptyStorage "jwt/" Example.defaults Example.fullPolicy).
  - reflexivity.
  - reflexivity.
  - unfold valid_window; vm_compute; repeat split; discriminate.
  - vm_compute; lia.
  - intros version Hv; cbn in Hv;
    assert (Hcases : version = 1 \/ version = 2 \/ version = 3) by lia;
    destruct Hcases as [-> | [-> | ->]]; eexists _, _; split; reflexivity.
Defined.

(** A run of [getPublicKeys_elements]: a window from 2 to 4 without version 3. *)
Lemma getPublicKeys_elements_witness :
  exists keys : list JSONWebKey,
    getPublicKeys 3%nat (Example.backendOf Example.prunedPolicy) Example.emptyStorage "jwt/" = Some (Return (mkJWKSet keys))
    /\ forall e : JSONWebKey,
         In e keys ->
         e = zeroJWK
         \/ exists version key assigned,
              MinDecryptionVersion Example.prunedPolicy <= version <= LatestVersion Example.prunedPolicy
              /\ Keys Example.prunedPolicy !! Go.Itoa version = Some key
              /\ keyBranch Example.prunedPolicy key = Proceed assigned
              /\ e = {| Key := assigned;
                        KeyID := createKeyId (id (Example.backendOf Example.prunedPolicy)) (Name Example.prunedPolicy) version;
                        Algorithm := SignatureAlgorithm Example.defaults;
                        Use := "sig" |}.
Proof.
  apply (@getPublicKeys_elements Example.env
           3%nat (Example.backendOf Example.prunedPolicy) Example.emptyStorage "jwt/" Example.defaults Example.prunedPolicy).
  - reflexivity.
  - reflexivity.
  - unfold valid_window; vm_compute; repeat split; discriminate.
  - vm_compute; lia.
Defined.

(** A run of [getPublicKeys_failure_isolated]: version 2 of a window from 1 to 3 replaced by an entry that is not PEM. *)
Lemma getPublicKeys_failure_isolated_witness :
  exists zeros : nat,
    getPublicKeys 3%nat (Example.backendOf (withKey 2 Example.brokenEntry Example.fullPolicy)) Example.emptyStorage "jwt/"
    = Some (Return (mkJWKSet
        (omap (published (Example.backendOf (withKey 2 Example.brokenEntry Example.fullPolicy)) Example.defaults Example.fullPolicy)
              (seqZ (MinDecryptionVersion Example.fullPolicy)
                    (2 - MinDecryptionVersion Example.fullPolicy))
         ++ omap (published (Example.backendOf (withKey 2 Example.brokenEntry Example.fullPolicy)) Example.defaults Example.fullPolicy)
              (seqZ (2 + 1) (LatestVersion Example.fullPolicy - 2))
         ++ replicate zeros zeroJWK)))
    /\ emitted (Example.backendOf (withKey 2 Example.brokenEntry Example.fullPolicy)) Example.defaults Example.fullPolicy
       = omap (published (Example.backendOf (withKey 2 Example.brokenEntry Example.fullPolicy)) Example.defaults Example.fullPolicy)
              (seqZ (MinDecryptionVersion Example.fullPolicy)
                    (2 - MinDecryptionVersion Example.fullPolicy))
         ++ option_list (published (Example.backendOf (withKey 2 Example.brokenEntry Example.fullPolicy)) Example.defaults Example.fullPolicy 2)
         ++ omap (published (Example.backendOf (withKey 2 Example.brokenEntry Example.fullPolicy)) Example.defaults Example.fullPolicy)
              (seqZ (2 + 1) (LatestVersion Example.fullPolicy - 2)).
Proof.
  apply (@getPublicKeys_failure_isolated Example.env
           3%nat (Example.backendOf (withKey 2 Example.brokenEntry Example.fullPolicy)) Example.emptyStorage "jwt/" Example.defaults Example.fullPolicy 2 Example.brokenEntry).
  - reflexivity.
  - reflexivity.
  - unfold valid_window; vm_compute; repeat split; discriminate.
  - vm_compute; lia.
  - cbn; lia.
  - reflexivity.
Defined.

End Runs.

(** The two sides of the ceiling: 768 hours is stored, one nanosecond more
    is rejected. *)
Example pathConfigWrite_at_the_ceiling :
  succeeded (fst (@pathConfigWrite Example.env (Example.backendOf Example.prunedPolicy)
                    Example.ceilingUpdate Example.emptyStorage)) = true
  /\ fst (@pathConfigWrite Example.env (Example.backendOf Example.prunedPolicy)
            {[keyTokenTTL := VString "768h1ns"]} Example.emptyStorage)
     = ttlRejection.
Proof. split; vm_compute; reflexivity. Qed.
